(** * Email-verification Lambda: a shallow embedding of both handler variants

    The repository holds one AWS Lambda handler in two variants:

    - [src/index.js]: configuration from [process.env] only, a 16-byte token,
      no error logging (module [Index] below);
    - [src/unnamed/part_000]: secrets fetched from AWS Secrets Manager at
      module load, a 20-byte token, verbose logging (module [Part000] below).

    The handlers are JavaScript, so the embedding has three layers:

    - the part of the JavaScript runtime the handlers rely on (values,
      property access, [ToString], truthiness, [encodeURIComponent], hex
      encoding of a [Buffer]);
    - an exception/state/trace monad [M] for [async] code whose [await]s run
      one after the other, with the external collaborators (SendGrid,
      Sequelize, Secrets Manager, the clock, the random source) supplied by a
      [World];
    - the two modules, function by function. *)

From Stdlib Require Import String Ascii List ZArith NArith Bool Lia PrimFloat.
From Stdlib.Strings Require Import Byte.
Import ListNotations.
Local Open Scope list_scope.
Local Open Scope string_scope.
Set Warnings "-register-all".

(** ** JavaScript values

    Events delivered by Lambda and the results of [JSON.parse] are JSON data;
    [VUndefined] is what reading an absent property yields.  Strings are byte
    strings holding UTF-8, numbers are IEEE binary64 as in JavaScript. *)

Inductive value : Type :=
| VUndefined
| VNull
| VBool (b : bool)
| VNum (x : float)
| VStr (s : string)
| VArr (items : list value)
| VObj (fields : list (string * value)).

(** Error objects.  [Error] is [new Error(message)] as the handlers throw it;
    [TypeError] and [SyntaxError] are raised by the runtime (their message
    text is the engine's); [Rejection] is an error object a collaborator
    rejects with, [response_body] being [error.response.body] when the error
    carries a response. *)
Inductive exn : Type :=
| Error (message : string)
| TypeError
| SyntaxError
| Rejection (response_body : option value) (message : string).

(** The runtime services used by the handlers that are not re-implemented
    here.  [JSON_parse] returns [None] where [JSON.parse] throws. *)
Class Runtime : Type := {
  JSON_parse : string -> option value;
  JSON_stringify : value -> nat -> value;
  Number_toString : float -> string;
  Date_toString : Z -> string
}.

Fixpoint own_property (fields : list (string * value)) (name : string) : option value :=
  match fields with
  | [] => None
  | (k, v) :: rest => if String.eqb k name then Some v else own_property rest name
  end.

(** [v.name] and [v[i]].  Reading a property of [undefined] or [null] throws;
    the names the handlers read ([Records], [Sns], [Message], [email],
    [SecretString], [password], [api_key]) are on no built-in prototype, so
    on every other value a name that is not an own property reads as
    [undefined]. *)
Definition get_prop (v : value) (name : string) : exn + value :=
  match v with
  | VUndefined | VNull => inl TypeError
  | VObj fields =>
      match own_property fields name with
      | Some x => inr x
      | None => inr VUndefined
      end
  | _ => inr VUndefined
  end.

Definition get_index (v : value) (i : nat) : exn + value :=
  match v with
  | VUndefined | VNull => inl TypeError
  | VArr items => inr (nth i items VUndefined)
  | VStr s =>
      match String.get i s with
      | Some c => inr (VStr (String c EmptyString))
      | None => inr VUndefined
      end
  | _ => inr VUndefined
  end.

(** [ToBoolean]. *)
Definition truthy (v : value) : bool :=
  match v with
  | VUndefined | VNull => false
  | VBool b => b
  | VNum x => negb (is_zero x || is_nan x)
  | VStr s => negb (String.eqb s "")
  | VArr _ | VObj _ => true
  end.

Definition Array_isArray (v : value) : bool :=
  match v with
  | VArr _ => true
  | _ => false
  end.

(** [v.length === 0] for a value already known to be an array. *)
Definition length_is_zero (v : value) : bool :=
  match v with
  | VArr items => Nat.eqb (length items) 0
  | _ => false
  end.

Section Coercions.
Context {rt : Runtime}.

(** [ToString].  An array joins its elements with commas ([undefined] and
    [null] elements print as nothing).  A plain object prints as
    [[object Object]] unless it has an own property [toString]: a JSON value
    there is not callable and [Object.prototype.valueOf] returns the object,
    so the conversion throws. *)
Fixpoint ToString (v : value) : exn + string :=
  match v with
  | VUndefined => inr "undefined"
  | VNull => inr "null"
  | VBool b => inr (if b then "true" else "false")
  | VNum x => inr (Number_toString x)
  | VStr s => inr s
  | VArr items =>
      (fix join (xs : list value) : exn + string :=
         match xs with
         | [] => inr ""
         | x :: rest =>
             match match x with
                   | VUndefined | VNull => inr ""
                   | _ => ToString x
                   end with
             | inl e => inl e
             | inr sx =>
                 match rest with
                 | [] => inr sx
                 | _ :: _ =>
                     match join rest with
                     | inl e => inl e
                     | inr sr => inr (sx ++ "," ++ sr)
                     end
                 end
             end
         end) items
  | VObj fields =>
      match own_property fields "toString" with
      | Some _ => inl TypeError
      | None => inr "[object Object]"
      end
  end.

(** [JSON.parse(v)]: the argument is converted to a string first. *)
Definition JSON_parse_value (v : value) : exn + value :=
  match ToString v with
  | inl e => inl e
  | inr text =>
      match JSON_parse text with
      | Some parsed => inr parsed
      | None => inl SyntaxError
      end
  end.

End Coercions.

(** ** Hex and percent encoding *)

Definition hex_digit_lower (n : N) : ascii :=
  nth (N.to_nat n) (list_ascii_of_string "0123456789abcdef") "0"%char.

Definition hex_digit_upper (n : N) : ascii :=
  nth (N.to_nat n) (list_ascii_of_string "0123456789ABCDEF") "0"%char.

Definition hex_of_byte (b : byte) : string :=
  let n := Byte.to_N b in
  String (hex_digit_lower (n / 16)) (String (hex_digit_lower (n mod 16)) EmptyString).

(** [buf.toString('hex')]. *)
Definition Buffer_toString_hex (buf : list byte) : string :=
  String.concat "" (map hex_of_byte buf).

Definition is_hex_char (c : ascii) : bool :=
  let n := N_of_ascii c in
  ((48 <=? n) && (n <=? 57) || (97 <=? n) && (n <=? 102))%N.

Fixpoint string_forallb (p : ascii -> bool) (s : string) : bool :=
  match s with
  | EmptyString => true
  | String c rest => p c && string_forallb p rest
  end.

(** The characters [encodeURIComponent] leaves alone:
    [A-Z a-z 0-9 - _ . ! ~ * ' ( )]. *)
Definition uri_unreserved (c : ascii) : bool :=
  let n := N_of_ascii c in
  ((65 <=? n) && (n <=? 90) || (97 <=? n) && (n <=? 122) || (48 <=? n) && (n <=? 57)
   || existsb (N.eqb n) [45; 95; 46; 33; 126; 42; 39; 40; 41])%N.

Definition percent_encode (c : ascii) : string :=
  let n := N_of_ascii c in
  String "%" (String (hex_digit_upper (n / 16)) (String (hex_digit_upper (n mod 16)) EmptyString)).

(** [encodeURIComponent] on a UTF-8 byte string: every byte outside the
    unreserved set becomes [%XX].  (On UTF-16 strings JavaScript throws a
    [URIError] for a lone surrogate; such strings have no UTF-8 form.) *)
Fixpoint encodeURIComponent (s : string) : string :=
  match s with
  | EmptyString => EmptyString
  | String c rest =>
      (if uri_unreserved c then String c EmptyString else percent_encode c)
        ++ encodeURIComponent rest
  end.

(** ** Collaborators, world and state *)

(** The message handed to [sgMail.send]. *)
Record EmailContent : Type := {
  to : value;
  from : value;
  subject : string;
  html : string
}.

(** The object handed to [EmailTracking.create], one row of the table. *)
Record Row : Type := {
  email : value;
  token : string;
  expiryTime : Z
}.

Inductive DataType : Type := STRING | DATE.

Record Attribute : Type := {
  attribute : string;
  type : DataType;
  allowNull : bool;
  isEmail : bool
}.

Record SequelizeConfig : Type := {
  database : value;
  username : value;
  password : value;
  host : value;
  port : value;
  dialect : string;
  logging : bool
}.

(** What [console.log] and [console.error] are given: strings, values, an
    error object, its [message] or its [stack]. *)
Inductive log_arg : Type :=
| LStr (s : string)
| LVal (v : value)
| LErr (e : exn)
| LMessage (e : exn)
| LStack (e : exn).

(** What a run does besides computing: console output and calls on the
    collaborators, in the order they happen. *)
Inductive effect : Type :=
| ConsoleLog (args : list log_arg)
| ConsoleError (args : list log_arg)
| NewSecretsManager (region : value)
| GetSecretValue (SecretId : string)
| SetApiKey (key : value)
| NewSequelize (config : SequelizeConfig)
| Define (modelName : string) (attributes : list Attribute) (timestamps : bool)
| Send (content : EmailContent)
| Sync
| Create (row : Row).

(** Everything outside the process.  [process_env] is [process.env] after
    [dotenv.config()]; [Date_now] is the clock in milliseconds;
    [crypto_entropy] is the byte stream behind [crypto.randomBytes]; the
    remaining fields say how each collaborator answers ([None]: the promise
    resolves, [Some e]: it rejects with [e]).  Whether Sequelize accepts a
    row (the column rules of the model, the insert itself) is part of the
    answer of [EmailTracking_create]. *)
Record World : Type := {
  process_env : string -> option string;
  Date_now : Z;
  crypto_entropy : nat -> byte;
  secretsManager_getSecretValue : string -> exn + value;
  sgMail_send : EmailContent -> option exn;
  sequelize_sync : option exn;
  EmailTracking_create : Row -> option exn
}.

(** The module-level variables of [part_000] and the table behind the
    [EmailTracking] model. *)
Record State : Type := {
  rdsPassword : value;
  sendGridApiKey : value;
  EmailTrackings : list Row
}.

Definition initial_state (rows : list Row) : State :=
  {| rdsPassword := VUndefined; sendGridApiKey := VUndefined; EmailTrackings := rows |}.

(** ** The monad of sequential [async] code

    A computation reads the world, threads the state, may throw, and records
    the calls it makes. *)

Definition M (A : Type) : Type := World -> State -> (exn + A) * State * list effect.

Definition ret {A} (a : A) : M A := fun _ s => (inr a, s, []).

Definition throw {A} (e : exn) : M A := fun _ s => (inl e, s, []).

Definition bind {A B} (m : M A) (k : A -> M B) : M B :=
  fun w s =>
    match m w s with
    | (inl e, s1, t1) => (inl e, s1, t1)
    | (inr a, s1, t1) =>
        match k a w s1 with
        | (r, s2, t2) => (r, s2, (t1 ++ t2)%list)
        end
    end.

(** [try { m } catch (error) { h error }]. *)
Definition try_catch {A} (m : M A) (h : exn -> M A) : M A :=
  fun w s =>
    match m w s with
    | (inl e, s1, t1) =>
        match h e w s1 with
        | (r, s2, t2) => (r, s2, (t1 ++ t2)%list)
        end
    | done => done
    end.

Definition lift {A} (r : exn + A) : M A := fun _ s => (r, s, []).

Definition emit (ev : effect) : M unit := fun _ s => (inr tt, s, [ev]).

Definition when (b : bool) (m : M unit) : M unit := if b then m else ret tt.

Declare Scope js_scope.
Delimit Scope js_scope with js.
Notation "x <- m ;; k" := (bind m (fun x => k))
  (at level 61, m at next level, right associativity) : js_scope.
Notation "' pat <- m ;; k" := (bind m (fun x => match x with pat => k end))
  (at level 61, pat pattern, m at next level, right associativity) : js_scope.
Notation "m ;; k" := (bind m (fun _ => k))
  (at level 61, right associativity) : js_scope.
Local Open Scope js_scope.

Definition env_value (o : option string) : value :=
  match o with
  | Some s => VStr s
  | None => VUndefined
  end.

(** [process.env.NAME]. *)
Definition getenv (name : string) : M value :=
  fun w s => (inr (env_value (process_env w name)), s, []).

(** [Date.now()].  Time values are integers; the clock is far inside the
    range of [Date], so [new Date(t)] holds [t] itself. *)
Definition now : M Z := fun w s => (inr (Date_now w), s, []).

(** [crypto.randomBytes(n)]: a buffer of exactly [n] bytes. *)
Definition crypto_randomBytes (n : nat) : M (list byte) :=
  fun w s => (inr (map (crypto_entropy w) (seq 0 n)), s, []).

Definition outcome (o : option exn) : exn + unit :=
  match o with
  | Some e => inl e
  | None => inr tt
  end.

(** [await secretsManager.getSecretValue({ SecretId }).promise()]. *)
Definition await_getSecretValue (SecretId : string) : M value :=
  fun w s => (secretsManager_getSecretValue w SecretId, s, [GetSecretValue SecretId]).

(** [await sgMail.send(content)]. *)
Definition await_sgMail_send (content : EmailContent) : M unit :=
  fun w s => (outcome (sgMail_send w content), s, [Send content]).

(** [await sequelize.sync()]. *)
Definition await_sequelize_sync : M unit :=
  fun w s => (outcome (sequelize_sync w), s, [Sync]).

(** [await EmailTracking.create(row)]: the row is in the table exactly when
    the promise resolves. *)
Definition await_EmailTracking_create (row : Row) : M unit :=
  fun w s =>
    match EmailTracking_create w row with
    | Some e => (inl e, s, [Create row])
    | None =>
        (inr tt,
         {| rdsPassword := rdsPassword s;
            sendGridApiKey := sendGridApiKey s;
            EmailTrackings := (EmailTrackings s ++ [row])%list |},
         [Create row])
    end.

Definition get_state : M State := fun _ s => (inr s, s, []).

Definition set_rdsPassword (v : value) : M unit :=
  fun _ s =>
    (inr tt,
     {| rdsPassword := v; sendGridApiKey := sendGridApiKey s; EmailTrackings := EmailTrackings s |},
     []).

Definition set_sendGridApiKey (v : value) : M unit :=
  fun _ s =>
    (inr tt,
     {| rdsPassword := rdsPassword s; sendGridApiKey := v; EmailTrackings := EmailTrackings s |},
     []).

(** The calls to the e-mail provider and to the datastore. *)
Definition is_outbound (ev : effect) : bool :=
  match ev with
  | Send _ | Sync | Create _ => true
  | _ => false
  end.

Definition outbound (trace : list effect) : list effect := filter is_outbound trace.

Definition is_datastore (ev : effect) : bool :=
  match ev with
  | Sync | Create _ => true
  | _ => false
  end.

Definition is_error_log (ev : effect) : bool :=
  match ev with
  | ConsoleError _ => true
  | _ => false
  end.

(** The column definitions both variants pass to [sequelize.define]. *)
Definition EmailTracking_attributes : list Attribute :=
  [ {| attribute := "email"; type := STRING; allowNull := false; isEmail := true |};
    {| attribute := "token"; type := STRING; allowNull := false; isEmail := false |};
    {| attribute := "expiryTime"; type := DATE; allowNull := false; isEmail := false |} ].

Definition newline : string := String (ascii_of_nat 10) EmptyString.
Definition dquote : string := String (ascii_of_nat 34) EmptyString.


(** ** [src/index.js] *)

Module Index.
Section WithRuntime.
Context {rt : Runtime}.

(** Lines 7-41: module evaluation.  SendGrid gets [SENDGRID_API_KEY],
    Sequelize gets the [DB_*] settings, the model is defined.  Nothing is
    checked: an unset variable is passed on as [undefined]. *)
Definition startup : M unit :=
  key <- getenv "SENDGRID_API_KEY" ;;
  emit (SetApiKey key) ;;
  db_name <- getenv "DB_NAME" ;;
  db_username <- getenv "DB_USERNAME" ;;
  db_password <- getenv "DB_PASSWORD" ;;
  db_host <- getenv "DB_HOST" ;;
  db_port <- getenv "DB_PORT" ;;
  emit (NewSequelize {| database := db_name; username := db_username;
                        password := db_password; host := db_host; port := db_port;
                        dialect := "postgres"; logging := false |}) ;;
  emit (Define "EmailTrackings" EmailTracking_attributes false).

(** Lines 44-52. *)
Definition generateVerificationLink (email : value) : M (string * string * Z) :=
  buf <- crypto_randomBytes 16 ;;
  let token := Buffer_toString_hex buf in
  t <- now ;;
  let expiryTime := (t + 2 * 60 * 1000)%Z in
  domain <- getenv "DOMAIN_NAME" ;;
  domain_text <- lift (ToString domain) ;;
  email_text <- lift (ToString email) ;;
  let link :=
    "http://" ++ domain_text ++ "/verify?email=" ++ encodeURIComponent email_text
      ++ "&token=" ++ token in
  emit (ConsoleLog [LStr token]) ;;
  ret (token, link, expiryTime).

(** Lines 55-74. *)
Definition sendVerificationEmail (email : value) (link : string) : M unit :=
  sender <- getenv "SENDGRID_FROM_EMAIL" ;;
  let emailContent :=
    {| to := email;
       from := sender;
       subject := "Verify Your Email";
       html :=
         newline
         ++ "      <p>Thank you for signing up! Please verify your email address by clicking the link below:</p>"
         ++ newline
         ++ "      <p><a href=" ++ dquote ++ link ++ dquote ++ ">Verify Email</a></p>"
         ++ newline
         ++ "      <p>This link will expire in 2 minutes.</p>"
         ++ newline
         ++ "    " |} in
  try_catch
    (await_sgMail_send emailContent)
    (fun error => throw (Error "Failed to send verification email")).

(** Lines 80-110: the body of the handler's [try]. *)
Definition handler_try (event : value) : M unit :=
  records <- lift (get_prop event "Records") ;;
  when (negb (truthy records) || negb (Array_isArray records) || length_is_zero records)
       (throw (Error "Invalid event structure: No Records found")) ;;
  record <- lift (get_index records 0) ;;
  sns <- lift (get_prop record "Sns") ;;
  message <- lift (get_prop sns "Message") ;;
  snsMessage <- lift (JSON_parse_value message) ;;
  email <- lift (get_prop snsMessage "email") ;;
  when (negb (truthy email))
       (throw (Error "Invalid SNS message: Missing email field")) ;;
  '(token, link, expiryTime) <- generateVerificationLink email ;;
  sendVerificationEmail email link ;;
  await_sequelize_sync ;;
  emit (ConsoleLog [LStr token]) ;;
  await_EmailTracking_create {| email := email; token := token; expiryTime := expiryTime |}.

(** Lines 77-115. *)
Definition handler (event : value) : M unit :=
  try_catch
    (handler_try event)
    (fun error => throw (Error "Verification process failed")).

End WithRuntime.
End Index.

(** ** [src/unnamed/part_000] *)

Module Part000.
Section WithRuntime.
Context {rt : Runtime}.

(** Lines 14-22. *)
Definition getSecret (secretName : string) : M value :=
  try_catch
    (secret <- await_getSecretValue secretName ;;
     secretString <- lift (get_prop secret "SecretString") ;;
     lift (JSON_parse_value secretString))
    (fun error =>
       emit (ConsoleError [LStr ("Error retrieving secret " ++ secretName ++ ":"); LErr error]) ;;
       throw (Error ("Failed to retrieve secret: " ++ secretName))).

(** Lines 27-42: the anonymous [async] function called at module level.  Its
    [catch] logs and returns. *)
Definition async_iife : M unit :=
  try_catch
    (rdsSecret <- getSecret "rds-db-password" ;;
     rds_password <- lift (get_prop rdsSecret "password") ;;
     set_rdsPassword rds_password ;;
     sendGridSecret <- getSecret "sendgrid-api-key" ;;
     api_key <- lift (get_prop sendGridSecret "api_key") ;;
     set_sendGridApiKey api_key ;;
     s <- get_state ;;
     emit (SetApiKey (sendGridApiKey s)))
    (fun error => emit (ConsoleError [LStr "Error initializing secrets:"; LMessage error])).

(** Lines 7-70: module evaluation.  The [async] function suspends at its
    first [await], so the rest of the module runs before any secret has
    arrived: [new Sequelize] reads [rdsPassword] while it is still
    [undefined].  The function's continuation is sequenced after the module
    body, which is the order in which its assignments take place, and the
    handler is taken to be invoked once it has finished. *)
Definition startup : M unit :=
  region <- getenv "REGION" ;;
  emit (NewSecretsManager region) ;;
  db_database <- getenv "DB_DATABASE" ;;
  db_username <- getenv "DB_USERNAME" ;;
  s <- get_state ;;
  db_host <- getenv "DB_HOST" ;;
  emit (NewSequelize {| database := db_database; username := db_username;
                        password := rdsPassword s; host := db_host; port := VUndefined;
                        dialect := "postgres"; logging := true |}) ;;
  emit (Define "EmailTracking" EmailTracking_attributes false) ;;
  async_iife.

(** Lines 73-79. *)
Definition generateVerificationLink (email : value) : M (string * string * Z) :=
  buf <- crypto_randomBytes 20 ;;
  let token := Buffer_toString_hex buf in
  t <- now ;;
  let expirationTime := (t + 2 * 60 * 1000)%Z in
  domain <- getenv "DOMAIN_NAME" ;;
  domain_text <- lift (ToString domain) ;;
  email_text <- lift (ToString email) ;;
  let link :=
    "http://" ++ domain_text ++ "/verify?email=" ++ encodeURIComponent email_text
      ++ "&token=" ++ token in
  email_shown <- lift (ToString email) ;;
  emit (ConsoleLog [LStr ("Generated token: " ++ token ++ ", expiry: "
                          ++ Date_toString expirationTime ++ ", for email: " ++ email_shown)]) ;;
  ret (token, link, expirationTime).

(** [error.response ? error.response.body : error.message]. *)
Definition response_body_or_message (error : exn) : log_arg :=
  match error with
  | Rejection (Some body) _ => LVal body
  | _ => LMessage error
  end.

(** Lines 82-102. *)
Definition sendVerificationEmail (email : value) (link : string) : M unit :=
  sender <- getenv "SENDGRID_FROM_EMAIL" ;;
  let emailContent :=
    {| to := email;
       from := sender;
       subject := "Verify Your Email";
       html :=
         newline
         ++ "      <p>Thank you for signing up! Please verify your email address by clicking the link below:</p>"
         ++ newline
         ++ "      <p><a href=" ++ dquote ++ link ++ dquote ++ ">Verify Email</a></p>"
         ++ newline
         ++ "      <p>This link will expire in 2 minutes.</p>"
         ++ newline
         ++ "    " |} in
  try_catch
    (email_text <- lift (ToString email) ;;
     emit (ConsoleLog [LStr ("Attempting to send email to " ++ email_text
                             ++ " with link: " ++ link)]) ;;
     await_sgMail_send emailContent ;;
     email_sent <- lift (ToString email) ;;
     emit (ConsoleLog [LStr ("Verification email sent to " ++ email_sent)]))
    (fun error =>
       emit (ConsoleError [LStr "Error sending email:"; response_body_or_message error]) ;;
       throw (Error "Failed to send verification email")).

(** Lines 108-142: the body of the handler's [try]. *)
Definition handler_try (event : value) : M unit :=
  records <- lift (get_prop event "Records") ;;
  when (negb (truthy records) || negb (Array_isArray records) || length_is_zero records)
       (emit (ConsoleError [LStr "Invalid event structure: No Records found"]) ;;
        throw (Error "Invalid event structure: No Records found")) ;;
  record <- lift (get_index records 0) ;;
  sns <- lift (get_prop record "Sns") ;;
  message <- lift (get_prop sns "Message") ;;
  snsMessage <- lift (JSON_parse_value message) ;;
  email <- lift (get_prop snsMessage "email") ;;
  when (negb (truthy email))
       (emit (ConsoleError [LStr "Invalid SNS message: Missing email field"]) ;;
        throw (Error "Invalid SNS message: Missing email field")) ;;
  email_text <- lift (ToString email) ;;
  emit (ConsoleLog [LStr ("Received email: " ++ email_text ++ " from SNS message")]) ;;
  '(token, link, expirationTime) <- generateVerificationLink email ;;
  sendVerificationEmail email link ;;
  emit (ConsoleLog [LStr "Syncing database..."]) ;;
  await_sequelize_sync ;;
  emit (ConsoleLog [LStr "Database synced. Saving email tracking details..."]) ;;
  await_EmailTracking_create {| email := email; token := token; expiryTime := expirationTime |} ;;
  email_logged <- lift (ToString email) ;;
  emit (ConsoleLog [LStr ("Verification email sent and logged for " ++ email_logged)]).

(** Lines 105-148. *)
Definition handler (event : value) : M unit :=
  emit (ConsoleLog [LStr "Event received:"; LVal (JSON_stringify event 2)]) ;;
  try_catch
    (handler_try event)
    (fun error =>
       emit (ConsoleError [LStr "Error handling verification process:"; LMessage error]) ;;
       emit (ConsoleError [LStack error]) ;;
       throw (Error "Verification process failed")).

End WithRuntime.
End Part000.

(** ** A runtime for running the handlers on concrete events

    [JSON_parse] reads the fragment of JSON made of objects, arrays, strings
    without escapes, integers, [true], [false] and [null] (anything else is
    refused); the three printers return a fixed text.  The theorems below
    hold for every runtime; this one only serves to evaluate examples. *)

Module Fixture.

Definition is_space (c : ascii) : bool :=
  existsb (N.eqb (N_of_ascii c)) [32; 9; 10; 13]%N.

Fixpoint skip_spaces (s : string) : string :=
  match s with
  | String c rest => if is_space c then skip_spaces rest else s
  | EmptyString => s
  end.

(** The characters of a string literal after its opening quote, up to the
    closing quote. *)
Fixpoint read_string (s : string) : option (string * string) :=
  match s with
  | EmptyString => None
  | String c rest =>
      let n := N_of_ascii c in
      if (n =? 34)%N then Some (EmptyString, rest)
      else if ((n =? 92) || (n <? 32))%N then None
      else
        match read_string rest with
        | Some (text, rest') => Some (String c text, rest')
        | None => None
        end
  end.

Definition digit_value (c : ascii) : option float :=
  let n := N_of_ascii c in
  if ((48 <=? n) && (n <=? 57))%N
  then Some (nth (N.to_nat (n - 48)) [0; 1; 2; 3; 4; 5; 6; 7; 8; 9]%float 0%float)
  else None.

Fixpoint read_digits (acc : float) (s : string) : float * string :=
  match s with
  | String c rest =>
      match digit_value c with
      | Some d => read_digits (acc * 10 + d)%float rest
      | None => (acc, s)
      end
  | EmptyString => (acc, s)
  end.

Definition read_literal (word : string) (v : value) (s : string) : option (value * string) :=
  if String.prefix word s
  then Some (v, String.substring (String.length word) (String.length s - String.length word) s)
  else None.

Inductive reading : Type := AValue | Elements | Members.

(** [read fuel AValue s] reads one value; [read fuel Elements s] reads
    [v, ..., v ]] into a [VArr]; [read fuel Members s] reads
    ["k": v, ..., "k": v }] into a [VObj]. *)
Fixpoint read (fuel : nat) (what : reading) (s : string) : option (value * string) :=
  match fuel with
  | O => None
  | S fuel' =>
      match what with
      | AValue =>
          match skip_spaces s with
          | EmptyString => None
          | String c rest =>
              let n := N_of_ascii c in
              if (n =? 34)%N then
                match read_string rest with
                | Some (text, rest') => Some (VStr text, rest')
                | None => None
                end
              else if (n =? 91)%N then
                match skip_spaces rest with
                | String "]" rest' => Some (VArr [], rest')
                | inside => read fuel' Elements inside
                end
              else if (n =? 123)%N then
                match skip_spaces rest with
                | String "}" rest' => Some (VObj [], rest')
                | inside => read fuel' Members inside
                end
              else if (n =? 45)%N then
                match rest with
                | String d _ =>
                    match digit_value d with
                    | Some _ => let (x, rest') := read_digits 0%float rest in Some (VNum (- x)%float, rest')
                    | None => None
                    end
                | EmptyString => None
                end
              else
                match digit_value c with
                | Some _ => let (x, rest') := read_digits 0%float (String c rest) in Some (VNum x, rest')
                | None =>
                    match read_literal "true" (VBool true) (String c rest) with
                    | Some r => Some r
                    | None =>
                        match read_literal "false" (VBool false) (String c rest) with
                        | Some r => Some r
                        | None => read_literal "null" VNull (String c rest)
                        end
                    end
                end
          end
      | Elements =>
          match read fuel' AValue s with
          | Some (v, rest) =>
              match skip_spaces rest with
              | String "," rest' =>
                  match read fuel' Elements rest' with
                  | Some (VArr items, rest'') => Some (VArr (v :: items), rest'')
                  | _ => None
                  end
              | String "]" rest' => Some (VArr [v], rest')
              | _ => None
              end
          | None => None
          end
      | Members =>
          match skip_spaces s with
          | String q rest =>
              if (N_of_ascii q =? 34)%N then
                match read_string rest with
                | Some (key, rest1) =>
                    match skip_spaces rest1 with
                    | String ":" rest2 =>
                        match read fuel' AValue rest2 with
                        | Some (v, rest3) =>
                            match skip_spaces rest3 with
                            | String "," rest4 =>
                                match read fuel' Members rest4 with
                                | Some (VObj fields, rest5) => Some (VObj ((key, v) :: fields), rest5)
                                | _ => None
                                end
                            | String "}" rest4 => Some (VObj [(key, v)], rest4)
                            | _ => None
                            end
                        | None => None
                        end
                    | _ => None
                    end
                | None => None
                end
              else None
          | EmptyString => None
          end
      end
  end.

Definition parse (text : string) : option value :=
  match read (S (String.length text)) AValue text with
  | Some (v, rest) =>
      match skip_spaces rest with
      | EmptyString => Some v
      | _ => None
      end
  | None => None
  end.

Definition runtime : Runtime :=
  {| JSON_parse := parse;
     JSON_stringify := fun _ _ => VStr "<json>";
     Number_toString := fun _ => "<number>";
     Date_toString := fun _ => "<date>" |}.

(** [{"email":<json>}], [{"email":"<address>"}] and an event carrying the
    latter, as in the spec's end-to-end scenario. *)
Definition message_with (json : string) : string :=
  "{" ++ dquote ++ "email" ++ dquote ++ ":" ++ json ++ "}".

Definition message_for (address : string) : string :=
  message_with (dquote ++ address ++ dquote).

Definition sns_record (message : value) : value :=
  VObj [("Sns", VObj [("Message", message)])].

Definition sns_event (records : list value) : value :=
  VObj [("Records", VArr records)].

Definition signup_event : value :=
  sns_event [sns_record (VStr (message_for "user@example.com"))].

(** The same first record, followed by records of no use. *)
Definition crowded_event : value :=
  sns_event [sns_record (VStr (message_for "user@example.com")); VNull; VStr "noise"].

Definition email_event (json : string) : value :=
  sns_event [sns_record (VStr (message_with json))].

(** A world in which every collaborator answers as given, the clock reads
    [1700000000000] and the random source yields the bytes 0, 1, 2, ... *)
Definition world (env : string -> option string) (send sync create : option exn) : World :=
  {| process_env := env;
     Date_now := 1700000000000;
     crypto_entropy := fun i => match Byte.of_nat i with Some b => b | None => x00 end;
     secretsManager_getSecretValue := fun _ => inl (Rejection None "AccessDeniedException");
     sgMail_send := fun _ => send;
     sequelize_sync := sync;
     EmailTracking_create := fun _ => create |}.

Definition configured (name : string) : option string :=
  if String.eqb name "DOMAIN_NAME" then Some "example.org"
  else if String.eqb name "SENDGRID_FROM_EMAIL" then Some "noreply@example.org"
  else None.

Definition unconfigured (name : string) : option string := None.

Definition healthy_world : World := world configured None None None.

Definition send_failing_world : World :=
  world configured (Some (Rejection None "Bad Request")) None None.

Definition bare_world : World := world unconfigured None None None.

Definition earlier_row : Row :=
  {| email := VStr "first@example.com"; token := "00"; expiryTime := 0 |}.

End Fixture.

(** ** Derived forms used in the statements

    [event_email] is the validation both handlers perform before anything
    is generated ([index.js] lines 82-92, [part_000] lines 110-122, logging
    left out): the [email] value of the message in [Records[0]], or the
    exception raised on the way. *)

Section Derived.
Context {rt : Runtime}.

Definition event_email (event : value) : exn + value :=
  match get_prop event "Records" with
  | inl e => inl e
  | inr records =>
      if negb (truthy records) || negb (Array_isArray records) || length_is_zero records
      then inl (Error "Invalid event structure: No Records found")
      else
        match get_index records 0 with
        | inl e => inl e
        | inr record =>
            match get_prop record "Sns" with
            | inl e => inl e
            | inr sns =>
                match get_prop sns "Message" with
                | inl e => inl e
                | inr message =>
                    match JSON_parse_value message with
                    | inl e => inl e
                    | inr snsMessage =>
                        match get_prop snsMessage "email" with
                        | inl e => inl e
                        | inr email =>
                            if negb (truthy email)
                            then inl (Error "Invalid SNS message: Missing email field")
                            else inr email
                        end
                    end
                end
            end
        end
  end.

(** What a caller and the collaborators can observe of a run: the result,
    the final state, and the calls to the e-mail provider and the
    datastore. *)
Definition observe {A} (run : (exn + A) * State * list effect) : (exn + A) * State * list effect :=
  match run with
  | (r, s, trace) => (r, s, outbound trace)
  end.

Definition result_of {A} (run : (exn + A) * State * list effect) : exn + A := fst (fst run).
Definition state_of {A} (run : (exn + A) * State * list effect) : State := snd (fst run).
Definition trace_of {A} (run : (exn + A) * State * list effect) : list effect := snd run.

Definition with_row (s : State) (row : Row) : State :=
  {| rdsPassword := rdsPassword s;
     sendGridApiKey := sendGridApiKey s;
     EmailTrackings := (EmailTrackings s ++ [row])%list |}.

(** The error both handlers surface to their caller. *)
Definition VerificationProcessError : exn := Error "Verification process failed".

End Derived.

(** The observable behaviour both handlers are shown to have, for a token of
    [n] bytes: a decision tree over the validation result and the three
    collaborator answers. *)

Section Process.
Context {rt : Runtime}.
Variable n : nat.

Definition generated_token (w : World) : string :=
  Buffer_toString_hex (map (crypto_entropy w) (seq 0 n)).

Definition verification_link (w : World) (address : string) : string :=
  "http://"
    ++ match process_env w "DOMAIN_NAME" with Some d => d | None => "undefined" end
    ++ "/verify?email=" ++ encodeURIComponent address ++ "&token=" ++ generated_token w.

Definition verification_email (w : World) (email : value) (address : string) : EmailContent :=
  {| to := email;
     from := env_value (process_env w "SENDGRID_FROM_EMAIL");
     subject := "Verify Your Email";
     html :=
       newline
       ++ "      <p>Thank you for signing up! Please verify your email address by clicking the link below:</p>"
       ++ newline
       ++ "      <p><a href=" ++ dquote ++ verification_link w address ++ dquote ++ ">Verify Email</a></p>"
       ++ newline
       ++ "      <p>This link will expire in 2 minutes.</p>"
       ++ newline
       ++ "    " |}.

Definition tracking_row (w : World) (email : value) : Row :=
  {| email := email; token := generated_token w; expiryTime := (Date_now w + 2 * 60 * 1000)%Z |}.

Definition process (event : value) (w : World) (s : State) : (exn + unit) * State * list effect :=
  match event_email event with
  | inl _ => (inl VerificationProcessError, s, [])
  | inr email =>
      match ToString email with
      | inl _ => (inl VerificationProcessError, s, [])
      | inr address =>
          let content := verification_email w email address in
          let row := tracking_row w email in
          match sgMail_send w content with
          | Some _ => (inl VerificationProcessError, s, [Send content])
          | None =>
              match sequelize_sync w with
              | Some _ => (inl VerificationProcessError, s, [Send content; Sync])
              | None =>
                  match EmailTracking_create w row with
                  | Some _ => (inl VerificationProcessError, s, [Send content; Sync; Create row])
                  | None => (inr tt, with_row s row, [Send content; Sync; Create row])
                  end
              end
          end
      end
  end.

End Process.

(** ** The two variants side by side *)

Inductive variant : Type := index_js | part_000.

Definition token_bytes (v : variant) : nat :=
  match v with
  | index_js => 16
  | part_000 => 20
  end.

Section Variants.
Context {rt : Runtime}.

Definition startup_of (v : variant) : M unit :=
  match v with
  | index_js => Index.startup
  | part_000 => Part000.startup
  end.

Definition generateVerificationLink_of (v : variant) : value -> M (string * string * Z) :=
  match v with
  | index_js => Index.generateVerificationLink
  | part_000 => Part000.generateVerificationLink
  end.

Definition sendVerificationEmail_of (v : variant) : value -> string -> M unit :=
  match v with
  | index_js => Index.sendVerificationEmail
  | part_000 => Part000.sendVerificationEmail
  end.

Definition handler_try_of (v : variant) : value -> M unit :=
  match v with
  | index_js => Index.handler_try
  | part_000 => Part000.handler_try
  end.

Definition handler_of (v : variant) : value -> M unit :=
  match v with
  | index_js => Index.handler
  | part_000 => Part000.handler
  end.

(** [snsMessage] is [JSON.parse(event.Records[0].Sns.Message)] for an event
    whose [Records] is a non-empty array. *)
Inductive first_record_message (event snsMessage : value) : Prop :=
| first_record_message_intro (record : value) (rest : list value) (sns message : value) (text : string) :
    get_prop event "Records" = inr (VArr (record :: rest)) ->
    get_prop record "Sns" = inr sns ->
    get_prop sns "Message" = inr message ->
    ToString message = inr text ->
    JSON_parse text = Some snsMessage ->
    first_record_message event snsMessage.

(** The events the handlers cannot interpret, each with the error raised
    inside the handler's [try]: no [Records], [Records] not an array, an
    empty [Records], a first message that is not JSON, a first message
    without an [email]. *)
Inductive MalformedEventError : value -> exn -> Prop :=
| Records_missing (event : value) :
    get_prop event "Records" = inr VUndefined ->
    MalformedEventError event (Error "Invalid event structure: No Records found")
| Records_not_an_array (event records : value) :
    get_prop event "Records" = inr records ->
    Array_isArray records = false ->
    MalformedEventError event (Error "Invalid event structure: No Records found")
| Records_empty (event : value) :
    get_prop event "Records" = inr (VArr []) ->
    MalformedEventError event (Error "Invalid event structure: No Records found")
| Message_not_JSON (event record : value) (rest : list value) (sns message : value) (text : string) :
    get_prop event "Records" = inr (VArr (record :: rest)) ->
    get_prop record "Sns" = inr sns ->
    get_prop sns "Message" = inr message ->
    ToString message = inr text ->
    JSON_parse text = None ->
    MalformedEventError event SyntaxError
| Message_without_email (event snsMessage : value) :
    first_record_message event snsMessage ->
    get_prop snsMessage "email" = inr VUndefined ->
    MalformedEventError event (Error "Invalid SNS message: Missing email field").

(** A view of [process] by cases, one constructor per way a run can end. *)
Inductive ProcessRun (n : nat) (event : value) (w : World) (s : State) :
  (exn + unit) * State * list effect -> Prop :=
| run_rejected (e : exn) :
    event_email event = inl e ->
    ProcessRun n event w s (inl VerificationProcessError, s, [])
| run_unprintable (email : value) (e : exn) :
    event_email event = inr email ->
    ToString email = inl e ->
    ProcessRun n event w s (inl VerificationProcessError, s, [])
| run_send_failed (email : value) (address : string) (e : exn) :
    event_email event = inr email ->
    ToString email = inr address ->
    sgMail_send w (verification_email n w email address) = Some e ->
    ProcessRun n event w s
      (inl VerificationProcessError, s, [Send (verification_email n w email address)])
| run_sync_failed (email : value) (address : string) (e : exn) :
    event_email event = inr email ->
    ToString email = inr address ->
    sgMail_send w (verification_email n w email address) = None ->
    sequelize_sync w = Some e ->
    ProcessRun n event w s
      (inl VerificationProcessError, s, [Send (verification_email n w email address); Sync])
| run_create_failed (email : value) (address : string) (e : exn) :
    event_email event = inr email ->
    ToString email = inr address ->
    sgMail_send w (verification_email n w email address) = None ->
    sequelize_sync w = None ->
    EmailTracking_create w (tracking_row n w email) = Some e ->
    ProcessRun n event w s
      (inl VerificationProcessError, s,
       [Send (verification_email n w email address); Sync; Create (tracking_row n w email)])
| run_completed (email : value) (address : string) :
    event_email event = inr email ->
    ToString email = inr address ->
    sgMail_send w (verification_email n w email address) = None ->
    sequelize_sync w = None ->
    EmailTracking_create w (tracking_row n w email) = None ->
    ProcessRun n event w s
      (inr tt, with_row s (tracking_row n w email),
       [Send (verification_email n w email address); Sync; Create (tracking_row n w email)]).

(** What [part_000] writes to [console.error] before it re-raises. *)
Definition failure_report (e : exn) : list effect :=
  [ConsoleError [LStr "Error handling verification process:"; LMessage e];
   ConsoleError [LStack e]].

Definition is_nullish (v : value) : bool :=
  match v with
  | VUndefined | VNull => true
  | _ => false
  end.

(** A row whose [email] is neither [null] nor [undefined]; its [token] is a
    string and its [expiryTime] a time value by construction. *)
Definition complete_row (row : Row) : Prop := is_nullish (email row) = false.

End Variants.

(** ** Decoders, further events and worlds used in the statements *)

(** The value of a hex digit, upper or lower case. *)
Definition hex_value (c : ascii) : N :=
  let n := N_of_ascii c in
  if (n <=? 57)%N then (n - 48)%N else if (n <=? 70)%N then (n - 55)%N else (n - 87)%N.

Definition byte_of_hex (hi lo : ascii) : option byte :=
  Byte.of_N (16 * hex_value hi + hex_value lo).

Definition ascii_of_hex (hi lo : ascii) : ascii :=
  ascii_of_N (16 * hex_value hi + hex_value lo).

Section Uninterpretable.
Context {rt : Runtime}.

(** Events on which a property is read from [null] or [undefined] before
    any check can reject them: the event itself, its first record, that
    record's [Sns], or a first message that is the JSON text [null]. *)
Inductive Uninterpretable : value -> Prop :=
| event_nullish (event : value) :
    is_nullish event = true ->
    Uninterpretable event
| record_nullish (event record : value) (rest : list value) :
    get_prop event "Records" = inr (VArr (record :: rest)) ->
    is_nullish record = true ->
    Uninterpretable event
| Sns_nullish (event record : value) (rest : list value) (sns : value) :
    get_prop event "Records" = inr (VArr (record :: rest)) ->
    get_prop record "Sns" = inr sns ->
    is_nullish sns = true ->
    Uninterpretable event
| message_null (event : value) :
    first_record_message event VNull ->
    Uninterpretable event.

End Uninterpretable.

(** Worlds for the examples of the second part: a Secrets Manager that holds
    both secrets, and a SendGrid that answers with a response body. *)
Module Vault.

Definition secret (field text : string) : value :=
  VObj [("SecretString",
         VStr ("{" ++ dquote ++ field ++ dquote ++ ":" ++ dquote ++ text ++ dquote ++ "}"))].

Definition getSecretValue (SecretId : string) : exn + value :=
  if String.eqb SecretId "rds-db-password" then inr (secret "password" "hunter2")
  else if String.eqb SecretId "sendgrid-api-key" then inr (secret "api_key" "SG.key")
  else inl (Rejection None "ResourceNotFoundException").

Definition world : World :=
  {| process_env := Fixture.configured;
     Date_now := 1700000000000;
     crypto_entropy := crypto_entropy Fixture.healthy_world;
     secretsManager_getSecretValue := getSecretValue;
     sgMail_send := fun _ => None;
     sequelize_sync := None;
     EmailTracking_create := fun _ => None |}.

Definition unauthorized : exn :=
  Rejection (Some (VObj [("errors", VArr [VStr "Unauthorized"])])) "Unauthorized".

Definition refusing_world : World := Fixture.world Fixture.configured (Some unauthorized) None None.

Definition datastore_down_world : World :=
  Fixture.world Fixture.configured None (Some (Rejection None "ECONNREFUSED")) None.

(** A message whose [email] is an object with an own [toString]. *)
Definition unprintable_event : value :=
  Fixture.email_event ("{" ++ dquote ++ "toString" ++ dquote ++ ":1}").

End Vault.

(** * Properties *)

(** ** Strings and traces *)

Lemma string_length_append (a b : string) :
  String.length (a ++ b) = String.length a + String.length b.
Proof.
  induction a as [|c a IH]; simpl; [reflexivity | now rewrite IH].
Qed.

Lemma string_forallb_append (p : ascii -> bool) (a b : string) :
  string_forallb p (a ++ b) = string_forallb p a && string_forallb p b.
Proof.
  induction a as [|c a IH]; simpl; [reflexivity |].
  now rewrite IH, andb_assoc.
Qed.

Lemma append_empty_r (a : string) : a ++ "" = a.
Proof.
  induction a as [|c a IH]; simpl; [reflexivity | now rewrite IH].
Qed.

Lemma string_append_assoc (a b c : string) : (a ++ b) ++ c = a ++ b ++ c.
Proof.
  induction a as [|x a IH]; simpl; [reflexivity | now rewrite IH].
Qed.

Lemma concat_empty_cons (x : string) (l : list string) :
  String.concat "" (x :: l) = x ++ String.concat "" l.
Proof.
  destruct l as [|y l]; simpl; [now rewrite append_empty_r | reflexivity].
Qed.

Lemma hex_of_byte_is_hex (b : byte) : string_forallb is_hex_char (hex_of_byte b) = true.
Proof.
  destruct b; reflexivity.
Qed.

Lemma Buffer_toString_hex_length (buf : list byte) :
  String.length (Buffer_toString_hex buf) = 2 * length buf.
Proof.
  unfold Buffer_toString_hex.
  induction buf as [|b buf IH]; [reflexivity |].
  cbn [map]. rewrite concat_empty_cons, string_length_append, IH.
  cbn [hex_of_byte String.length length]. lia.
Qed.

Lemma Buffer_toString_hex_is_hex (buf : list byte) :
  string_forallb is_hex_char (Buffer_toString_hex buf) = true.
Proof.
  unfold Buffer_toString_hex.
  induction buf as [|b buf IH]; [reflexivity |].
  cbn [map]. rewrite concat_empty_cons, string_forallb_append, IH.
  now rewrite hex_of_byte_is_hex.
Qed.

Lemma generated_token_length (n : nat) (w : World) :
  String.length (generated_token n w) = 2 * n.
Proof.
  unfold generated_token.
  now rewrite Buffer_toString_hex_length, length_map, length_seq.
Qed.

Lemma in_outbound (ev : effect) (trace : list effect) :
  In ev trace -> is_outbound ev = true -> In ev (outbound trace).
Proof.
  intros Hin Hout. apply filter_In. now split.
Qed.

Lemma datastore_calls_are_outbound (trace : list effect) :
  filter is_datastore (outbound trace) = filter is_datastore trace.
Proof.
  unfold outbound.
  induction trace as [|ev trace IH]; [reflexivity |].
  cbn [filter]. destruct ev; cbn [is_outbound is_datastore filter]; now rewrite ?IH.
Qed.

Lemma observe_components {A} (run : (exn + A) * State * list effect) :
  observe run = (result_of run, state_of run, outbound (trace_of run)).
Proof.
  now destruct run as [[r s] trace].
Qed.

(** ** The monad *)

Lemma bind_ret_l {A B} (a : A) (k : A -> M B) (w : World) (s : State) :
  bind (ret a) k w s = k a w s.
Proof.
  unfold bind, ret. now destruct (k a w s) as [[r s'] t].
Qed.

Lemma bind_ret_r {A} (m : M A) (w : World) (s : State) :
  bind m ret w s = m w s.
Proof.
  unfold bind, ret. destruct (m w s) as [[[e|a] s'] t]; [reflexivity|].
  now rewrite app_nil_r.
Qed.

Lemma bind_assoc {A B C} (m : M A) (k : A -> M B) (h : B -> M C) (w : World) (s : State) :
  bind (bind m k) h w s = bind m (fun a => bind (k a) h) w s.
Proof.
  unfold bind. destruct (m w s) as [[[e|a] s1] t1]; [reflexivity|].
  destruct (k a w s1) as [[[e|b] s2] t2]; [reflexivity|].
  destruct (h b w s2) as [[r s3] t3]. now rewrite app_assoc.
Qed.

Lemma try_catch_throw {A} (e : exn) (h : exn -> M A) (w : World) (s : State) :
  try_catch (throw e) h w s = h e w s.
Proof.
  unfold try_catch, throw. now destruct (h e w s) as [[r s'] t].
Qed.

(** ** Both handlers behave as [process] *)

Ltac unfold_js :=
  cbv [Index.handler Index.handler_try Index.generateVerificationLink Index.sendVerificationEmail
       Part000.handler Part000.handler_try Part000.generateVerificationLink
       Part000.sendVerificationEmail
       handler_of handler_try_of generateVerificationLink_of sendVerificationEmail_of
       bind ret throw try_catch lift emit when getenv now crypto_randomBytes
       await_sgMail_send await_sequelize_sync await_EmailTracking_create outcome
       observe result_of state_of trace_of fst snd
       event_email process verification_email verification_link tracking_row generated_token
       VerificationProcessError with_row env_value].

Ltac unfold_startup :=
  cbv [startup_of Index.startup Part000.startup Part000.async_iife Part000.getSecret
       bind ret throw try_catch lift emit getenv get_state set_rdsPassword set_sendGridApiKey
       await_getSecretValue result_of state_of trace_of fst snd
       EmailTrackings rdsPassword sendGridApiKey].

Ltac innermost x :=
  lazymatch x with
  | context [match _ with _ => _ end] => fail
  | _ => idtac
  end.

(** Split on the first scrutinee that is stuck on an answer of the runtime
    or of a collaborator. *)
Ltac split_run :=
  repeat (cbv beta iota zeta; cbn [ToString];
          match goal with
          | |- context [match ?x with _ => _ end] => innermost x; destruct x eqn:?
          end).

(** Case analysis on how the run of a handler ends, through [ProcessRun]. *)
Ltac run_cases R :=
  match type of R with
  | ProcessRun _ _ _ _ (?r, ?s', ?out) =>
      let r' := fresh "result" in
      let st := fresh "final" in
      let o := fresh "calls" in
      remember r as r' eqn:Hresult;
      remember s' as st eqn:Hfinal;
      remember out as o eqn:Hcalls;
      clear Hresult Hfinal Hcalls;
      inversion R; subst; clear R
  end.

Ltac settle := cbn [app outbound filter is_outbound is_error_log]; try reflexivity; try congruence.

Section HandlerProperties.
Context {rt : Runtime}.

Lemma Index_handler_process (event : value) (w : World) (s : State) :
  observe (Index.handler event w s) = process 16 event w s.
Proof.
  unfold_js. split_run; settle.
Qed.

Lemma Part000_handler_process (event : value) (w : World) (s : State) :
  observe (Part000.handler event w s) = process 20 event w s.
Proof.
  unfold_js. split_run; settle.
Qed.

Lemma handler_process (v : variant) (event : value) (w : World) (s : State) :
  observe (handler_of v event w s) = process (token_bytes v) event w s.
Proof.
  destruct v; [apply Index_handler_process | apply Part000_handler_process].
Qed.

Lemma process_run (n : nat) (event : value) (w : World) (s : State) :
  ProcessRun n event w s (process n event w s).
Proof.
  unfold process.
  destruct (event_email event) as [e|email] eqn:Hemail; [eapply run_rejected; eassumption|].
  destruct (ToString email) as [e|address] eqn:Htext; [eapply run_unprintable; eassumption|].
  destruct (sgMail_send w _) as [e|] eqn:Hsend; [eapply run_send_failed; eassumption|].
  destruct (sequelize_sync w) as [e|] eqn:Hsync; [eapply run_sync_failed; eassumption|].
  destruct (EmailTracking_create w _) as [e|] eqn:Hcreate;
    [eapply run_create_failed; eassumption | eapply run_completed; eassumption].
Qed.

Lemma handler_run (v : variant) (event : value) (w : World) (s : State) :
  ProcessRun (token_bytes v) event w s
    (result_of (handler_of v event w s), state_of (handler_of v event w s),
     outbound (trace_of (handler_of v event w s))).
Proof.
  rewrite <- observe_components, handler_process. apply process_run.
Qed.

(** The handler's [catch] turns every exception of the [try] into the one
    generic error and lets a normal return through. *)
Lemma handler_result (v : variant) (event : value) (w : World) (s : State) :
  result_of (handler_of v event w s) =
  match result_of (handler_try_of v event w s) with
  | inl _ => inl VerificationProcessError
  | inr done => inr done
  end.
Proof.
  destruct v; cbv [handler_of handler_try_of Index.handler Part000.handler try_catch bind emit throw
                   result_of fst VerificationProcessError].
  - destruct (Index.handler_try event w s) as [[[e|[]] s1] t1]; reflexivity.
  - destruct (Part000.handler_try event w s) as [[[e|[]] s1] t1]; reflexivity.
Qed.

(** The validation error is the exception the [try] ends with. *)
Lemma handler_try_rejects (v : variant) (event : value) (w : World) (s : State) (e : exn) :
  event_email event = inl e ->
  result_of (handler_try_of v event w s) = inl e.
Proof.
  destruct v; unfold_js; intros H; split_run; settle.
Qed.

End HandlerProperties.

(** ** Claims *)

Section Claims.
Context {rt : Runtime}.

Lemma malformed_event_email (event : value) (e : exn) :
  MalformedEventError event e -> event_email event = inl e.
Proof.
  intros H. unfold event_email.
  destruct H as [event H | event records H Harr | event H
                | event record rest sns message text H Hsns Hmsg Htext Hparse
                | event snsMessage [record rest sns message text H Hsns Hmsg Htext Hparse] Hemail];
    rewrite H.
  - reflexivity.
  - now rewrite Harr, orb_true_r.
  - reflexivity.
  - cbn. rewrite Hsns, Hmsg. unfold JSON_parse_value. now rewrite Htext, Hparse.
  - cbn. rewrite Hsns, Hmsg. unfold JSON_parse_value. now rewrite Htext, Hparse, Hemail.
Qed.

Lemma falsy_event_email (event snsMessage email : value) :
  first_record_message event snsMessage ->
  get_prop snsMessage "email" = inr email ->
  truthy email = false ->
  event_email event = inl (Error "Invalid SNS message: Missing email field").
Proof.
  intros [record rest sns message text H Hsns Hmsg Htext Hparse] Hemail Hfalsy.
  unfold event_email. rewrite H. cbn. rewrite Hsns, Hmsg.
  unfold JSON_parse_value. now rewrite Htext, Hparse, Hemail, Hfalsy.
Qed.

(** A run that ends in the validation leaves no trace outside the process. *)
Lemma rejected_run (v : variant) (event : value) (w : World) (s : State) (e : exn) :
  event_email event = inl e ->
  result_of (handler_try_of v event w s) = inl e /\
  result_of (handler_of v event w s) = inl VerificationProcessError /\
  state_of (handler_of v event w s) = s /\
  outbound (trace_of (handler_of v event w s)) = [].
Proof.
  intros He. split; [now apply handler_try_rejects|].
  pose proof (handler_run v event w s) as R.
  run_cases R; try congruence. now repeat split.
Qed.

(** C1.  If [sgMail.send] rejects the message the handler sent it, the
    handler fails with the generic error, the state is as before, and
    neither [sequelize.sync] nor [EmailTracking.create] is called. *)
Theorem send_failure_aborts
  (v : variant) (event : value) (w : World) (s : State) (content : EmailContent) (e : exn) :
  In (Send content) (trace_of (handler_of v event w s)) ->
  sgMail_send w content = Some e ->
  result_of (handler_of v event w s) = inl VerificationProcessError /\
  state_of (handler_of v event w s) = s /\
  filter is_datastore (trace_of (handler_of v event w s)) = [].
Proof.
  intros Hin Hfail.
  apply in_outbound in Hin; [|reflexivity].
  rewrite <- datastore_calls_are_outbound.
  pose proof (handler_run v event w s) as R.
  run_cases R; cbn [In] in Hin;
    repeat match goal with
           | H : _ \/ _ |- _ => destruct H
           | H : False |- _ => destruct H
           | H : Send _ = Send _ |- _ => injection H as <-
           end;
    try discriminate; try congruence.
  all: now repeat split.
Qed.

(** C2.  An event without [Records], with a [Records] that is not an array
    or is empty, or whose first message is not JSON or has no [email], makes
    the [try] raise the error of that case; the handler fails with the
    generic error, leaves the state alone and calls neither the e-mail
    provider nor the datastore. *)
Theorem malformed_event_rejected
  (v : variant) (event : value) (w : World) (s : State) (e : exn) :
  MalformedEventError event e ->
  result_of (handler_try_of v event w s) = inl e /\
  result_of (handler_of v event w s) = inl VerificationProcessError /\
  state_of (handler_of v event w s) = s /\
  outbound (trace_of (handler_of v event w s)) = [].
Proof.
  intros H. apply rejected_run. now apply malformed_event_email.
Qed.

(** C10.  A message whose [email] is present but falsy (the empty string,
    [null], [0], [false]) is rejected exactly like a message without
    [email]: same error inside the [try], generic error to the caller, no
    call to the e-mail provider or the datastore. *)
Theorem falsy_email_rejected
  (v : variant) (event snsMessage email : value) (w : World) (s : State) :
  first_record_message event snsMessage ->
  get_prop snsMessage "email" = inr email ->
  truthy email = false ->
  result_of (handler_try_of v event w s) = inl (Error "Invalid SNS message: Missing email field") /\
  result_of (handler_of v event w s) = inl VerificationProcessError /\
  state_of (handler_of v event w s) = s /\
  outbound (trace_of (handler_of v event w s)) = [].
Proof.
  intros Hmsg Hemail Hfalsy. apply rejected_run.
  now apply falsy_event_email with snsMessage email.
Qed.

(** What [generateVerificationLink] returns for an e-mail value that has a
    string form. *)
Lemma generateVerificationLink_result
  (v : variant) (email : value) (address : string) (w : World) (s : State) :
  ToString email = inr address ->
  exists log,
    generateVerificationLink_of v email w s =
    (inr (generated_token (token_bytes v) w,
          verification_link (token_bytes v) w address,
          (Date_now w + 2 * 60 * 1000)%Z), s, log).
Proof.
  intros H. destruct v; unfold_js; rewrite H; split_run; eexists; reflexivity.
Qed.

Lemma verification_link_with_domain (n : nat) (w : World) (address domain : string) :
  process_env w "DOMAIN_NAME" = Some domain ->
  verification_link n w address =
  "http://" ++ domain ++ "/verify?email=" ++ encodeURIComponent address
    ++ "&token=" ++ generated_token n w.
Proof.
  intros H. unfold verification_link. now rewrite H.
Qed.

(** A run that gets past the validation with a printable e-mail value
    starts its outside calls with the verification e-mail. *)
Lemma first_call_is_the_email
  (v : variant) (event email : value) (address : string) (w : World) (s : State) :
  event_email event = inr email ->
  ToString email = inr address ->
  hd_error (outbound (trace_of (handler_of v event w s))) =
  Some (Send (verification_email (token_bytes v) w email address)).
Proof.
  intros He Ht.
  pose proof (handler_run v event w s) as R.
  run_cases R; try congruence;
    match goal with
    | H1 : event_email event = inr ?x, H2 : ToString ?x = inr ?a |- _ =>
        assert (x = email) by congruence; subst x;
        assert (a = address) by congruence; subst a
    end; reflexivity.
Qed.

(** C3.  For an event that passes the validation with an e-mail value whose
    string form is [address], under a configured [DOMAIN_NAME]:
    [generateVerificationLink] returns a token of 32 ([index.js]) or 40
    ([part_000]) lower-case hex digits and the link
    [http://<domain>/verify?email=<urlencoded address>&token=<token>], and
    the message the handler sends is addressed to that e-mail value and
    embeds that link. *)
Theorem token_and_link_format
  (v : variant) (event email : value) (address domain : string) (w : World) (s : State) :
  event_email event = inr email ->
  ToString email = inr address ->
  process_env w "DOMAIN_NAME" = Some domain ->
  exists (token : string) (log : list effect) (content : EmailContent) (before after : string),
    String.length token = match v with index_js => 32 | part_000 => 40 end /\
    string_forallb is_hex_char token = true /\
    generateVerificationLink_of v email w s =
      (inr (token,
            "http://" ++ domain ++ "/verify?email=" ++ encodeURIComponent address
              ++ "&token=" ++ token,
            (Date_now w + 2 * 60 * 1000)%Z), s, log) /\
    hd_error (outbound (trace_of (handler_of v event w s))) = Some (Send content) /\
    to content = email /\
    html content =
      before
        ++ ("http://" ++ domain ++ "/verify?email=" ++ encodeURIComponent address
              ++ "&token=" ++ token)
        ++ after.
Proof.
  intros He Ht Hd.
  destruct (generateVerificationLink_result v email address w s Ht) as [log Hgen].
  rewrite (verification_link_with_domain _ _ _ _ Hd) in Hgen.
  exists (generated_token (token_bytes v) w), log,
         (verification_email (token_bytes v) w email address).
  exists (newline
       ++ "      <p>Thank you for signing up! Please verify your email address by clicking the link below:</p>"
       ++ newline
       ++ "      <p><a href=" ++ dquote).
  exists (dquote ++ ">Verify Email</a></p>"
       ++ newline
       ++ "      <p>This link will expire in 2 minutes.</p>"
       ++ newline
       ++ "    ").
  repeat split.
  - rewrite generated_token_length. now destruct v.
  - apply Buffer_toString_hex_is_hex.
  - exact Hgen.
  - now apply first_call_is_the_email.
  - cbn [verification_email html].
    rewrite (verification_link_with_domain _ _ _ _ Hd).
    generalize ("http://" ++ domain ++ "/verify?email=" ++ encodeURIComponent address ++ "&token=" ++ generated_token (token_bytes v) w).
    intros link.
    reflexivity.
Qed.
(** A run that resolves went through every stage. *)
Lemma completed_run (v : variant) (event : value) (w : World) (s : State) :
  result_of (handler_of v event w s) = inr tt ->
  exists (email : value) (address : string),
    event_email event = inr email /\
    ToString email = inr address /\
    state_of (handler_of v event w s) = with_row s (tracking_row (token_bytes v) w email) /\
    outbound (trace_of (handler_of v event w s)) =
      [Send (verification_email (token_bytes v) w email address); Sync;
       Create (tracking_row (token_bytes v) w email)].
Proof.
  intros Hok.
  pose proof (handler_run v event w s) as R.
  run_cases R; try discriminate.
  eexists; eexists; repeat split; eassumption.
Qed.

Lemma failed_run (v : variant) (event : value) (w : World) (s : State) (e : exn) :
  result_of (handler_of v event w s) = inl e ->
  e = VerificationProcessError /\ state_of (handler_of v event w s) = s.
Proof.
  intros Hko.
  pose proof (handler_run v event w s) as R.
  run_cases R; try discriminate; split; congruence.
Qed.

Lemma truthy_not_nullish (x : value) : truthy x = true -> is_nullish x = false.
Proof.
  destruct x; simpl; congruence.
Qed.

Lemma event_email_truthy (event email : value) :
  event_email event = inr email -> truthy email = true.
Proof.
  unfold event_email. intros H.
  repeat match type of H with
         | match ?x with _ => _ end = _ => destruct x eqn:?; try discriminate
         end.
  injection H as <-.
  match goal with H : negb _ = false |- _ => now apply negb_false_iff in H end.
Qed.

(** C4.  When the handler resolves, the [expiryTime] returned by
    [generateVerificationLink], passed to [EmailTracking.create] and stored
    in the new row is [Date.now()] plus 120 seconds. *)
Theorem expiry_is_two_minutes_after_now
  (v : variant) (event : value) (w : World) (s : State) :
  result_of (handler_of v event w s) = inr tt ->
  exists (email : value) (token link : string) (expiry : Z) (log : list effect),
    event_email event = inr email /\
    generateVerificationLink_of v email w s = (inr (token, link, expiry), s, log) /\
    (expiry - Date_now w = 120 * 1000)%Z /\
    In (Create {| email := email; token := token; expiryTime := expiry |})
       (trace_of (handler_of v event w s)) /\
    EmailTrackings (state_of (handler_of v event w s)) =
      (EmailTrackings s ++ [{| email := email; token := token; expiryTime := expiry |}])%list.
Proof.
  intros Hok.
  destruct (completed_run v event w s Hok) as (email & address & He & Ht & Hs & Hcalls).
  destruct (generateVerificationLink_result v email address w s Ht) as [log Hgen].
  exists email. do 3 eexists. exists log.
  split; [exact He|]. split; [exact Hgen|]. split; [lia|]. split.
  - assert (Hin : In (Create (tracking_row (token_bytes v) w email))
                     (outbound (trace_of (handler_of v event w s)))).
    { rewrite Hcalls. cbn [In]. auto. }
    apply filter_In in Hin. exact (proj1 Hin).
  - rewrite Hs. reflexivity.
Qed.

(** C5.  If every stored row has an [email] that is not null, so has every
    row after a run.  A run that resolves appends exactly one row, made of
    the [email] extracted from the event and the token and expiry time that
    [generateVerificationLink] returned in this run; a run that fails leaves
    the table as it was.  Earlier rows are never changed or removed. *)
Theorem persisted_row_is_complete
  (v : variant) (event : value) (w : World) (s : State) :
  Forall complete_row (EmailTrackings s) ->
  Forall complete_row (EmailTrackings (state_of (handler_of v event w s))) /\
  match result_of (handler_of v event w s) with
  | inr _ =>
      exists (email : value) (token link : string) (expiry : Z) (log : list effect),
        event_email event = inr email /\
        is_nullish email = false /\
        generateVerificationLink_of v email w s = (inr (token, link, expiry), s, log) /\
        EmailTrackings (state_of (handler_of v event w s)) =
          (EmailTrackings s ++ [{| email := email; token := token; expiryTime := expiry |}])%list
  | inl _ => EmailTrackings (state_of (handler_of v event w s)) = EmailTrackings s
  end.
Proof.
  intros Hinv.
  destruct (result_of (handler_of v event w s)) as [e|[]] eqn:Hres.
  - destruct (failed_run v event w s e Hres) as [_ ->]. now split.
  - destruct (completed_run v event w s Hres) as (email & address & He & Ht & Hs & _).
    destruct (generateVerificationLink_result v email address w s Ht) as [log Hgen].
    pose proof (truthy_not_nullish _ (event_email_truthy _ _ He)) as Hnn.
    rewrite Hs. split.
    + cbn [with_row EmailTrackings]. apply Forall_app. split; [exact Hinv|].
      constructor; [exact Hnn | constructor].
    + exists email. do 3 eexists. exists log. repeat split; eauto.
Qed.

Lemma event_email_first_record (e1 e2 record : value) (rest1 rest2 : list value) :
  get_prop e1 "Records" = inr (VArr (record :: rest1)) ->
  get_prop e2 "Records" = inr (VArr (record :: rest2)) ->
  event_email e1 = event_email e2.
Proof.
  intros H1 H2. unfold event_email. rewrite H1, H2. reflexivity.
Qed.

(** C8.  Two events whose [Records] arrays start with the same record get
    the same result, the same final state (the same stored row) and the same
    calls to the e-mail provider and the datastore (the same message), in
    the same world; [index.js] even leaves the same trace. *)
Theorem only_first_record_is_consulted
  (v : variant) (e1 e2 record : value) (rest1 rest2 : list value) (w : World) (s : State) :
  get_prop e1 "Records" = inr (VArr (record :: rest1)) ->
  get_prop e2 "Records" = inr (VArr (record :: rest2)) ->
  observe (handler_of v e1 w s) = observe (handler_of v e2 w s) /\
  Index.handler e1 w s = Index.handler e2 w s.
Proof.
  intros H1 H2. split.
  - rewrite !handler_process. unfold process.
    now rewrite (event_email_first_record e1 e2 record rest1 rest2 H1 H2).
  - unfold Index.handler, Index.handler_try, try_catch, bind, lift.
    rewrite H1, H2. reflexivity.
Qed.

Lemma link_has_fixed_prefix (n : nat) (w : World) (address : string) :
  verification_link n w address =
  ("http://"
     ++ match process_env w "DOMAIN_NAME" with Some d => d | None => "undefined" end
     ++ "/verify?email=" ++ encodeURIComponent address ++ "&token=")
    ++ generated_token n w.
Proof.
  unfold verification_link.
  generalize (match process_env w "DOMAIN_NAME" with Some d => d | None => "undefined" end).
  intros d. generalize (encodeURIComponent address). intros enc.
  generalize (generated_token n w). intros tok.
  cbn [append]. do 7 f_equal.
  rewrite (string_append_assoc d). f_equal.
  cbn [append]. do 14 f_equal.
  now rewrite (string_append_assoc enc).
Qed.

Lemma sendVerificationEmail_agree (email : value) (address link : string) (w : World) (s : State) :
  ToString email = inr address ->
  observe (Index.sendVerificationEmail email link w s)
  = observe (Part000.sendVerificationEmail email link w s).
Proof.
  intros H. unfold_js. rewrite H. split_run; settle.
Qed.

(** C9.  Given the same e-mail value, clock and configuration, the two
    variants return the same expiry time ([Date.now()] plus two minutes) and
    links that are one fixed prefix followed by the token, 32 hex digits in
    [index.js] and 40 in [part_000]; given the same e-mail value and link,
    their [sendVerificationEmail] hands the same message to [sgMail.send]
    (same [to], [from], subject [Verify Your Email] and [html]) and ends the
    same way; and both handlers behave as the one [process], instantiated
    at 16 and at 20 bytes. *)
Theorem variants_share_core_logic
  (email : value) (address link : string) (w : World) (s : State) :
  ToString email = inr address ->
  (exists (prefix token16 token20 : string) (log16 log20 : list effect),
     Index.generateVerificationLink email w s =
       (inr (token16, prefix ++ token16, (Date_now w + 2 * 60 * 1000)%Z), s, log16) /\
     Part000.generateVerificationLink email w s =
       (inr (token20, prefix ++ token20, (Date_now w + 2 * 60 * 1000)%Z), s, log20) /\
     String.length token16 = 2 * 16 /\ String.length token20 = 2 * 20) /\
  observe (Index.sendVerificationEmail email link w s)
  = observe (Part000.sendVerificationEmail email link w s) /\
  (exists content : EmailContent,
     outbound (trace_of (Index.sendVerificationEmail email link w s)) = [Send content] /\
     to content = email /\
     from content = env_value (process_env w "SENDGRID_FROM_EMAIL") /\
     subject content = "Verify Your Email") /\
  (forall event : value,
     observe (Index.handler event w s) = process 16 event w s /\
     observe (Part000.handler event w s) = process 20 event w s).
Proof.
  intros Ht. repeat split.
  - destruct (generateVerificationLink_result index_js email address w s Ht) as [log16 H16].
    destruct (generateVerificationLink_result part_000 email address w s Ht) as [log20 H20].
    rewrite link_has_fixed_prefix in H16, H20.
    do 3 eexists. exists log16, log20.
    split; [exact H16|]. split; [exact H20|].
    split; apply generated_token_length.
  - now apply sendVerificationEmail_agree with address.
  - unfold_js. split_run; eexists; settle; repeat split; reflexivity.
  - apply Index_handler_process.
  - apply Part000_handler_process.
Qed.

Lemma Part000_failure_is_logged (event : value) (w : World) (s : State) (e : exn) :
  result_of (Part000.handler_try event w s) = inl e ->
  exists before, trace_of (Part000.handler event w s) = (before ++ failure_report e)%list.
Proof.
  cbv [Part000.handler try_catch bind emit throw result_of trace_of fst snd failure_report].
  destruct (Part000.handler_try event w s) as [[[e'|[]] s1] t1]; intros H; [|discriminate].
  injection H as ->.
  exists (ConsoleLog [LStr "Event received:"; LVal (JSON_stringify event 2)] :: t1).
  reflexivity.
Qed.

Lemma Index_logs_no_error (event : value) (w : World) (s : State) :
  filter is_error_log (trace_of (Index.handler event w s)) = [].
Proof.
  unfold_js. split_run; settle.
Qed.

(** C7 (amended).  Whatever exception ends the handler's [try], the caller
    gets the one generic error and the state is as before; a normal end of
    the [try] is a complete run (message sent, table synchronised, row
    stored).  Before re-raising, [part_000] writes the message and the stack
    of the internal error to [console.error]; [index.js] writes nothing to
    [console.error]. *)
Theorem failure_is_reraised_as_generic_error
  (v : variant) (event : value) (w : World) (s : State) :
  match result_of (handler_try_of v event w s) with
  | inr _ =>
      result_of (handler_of v event w s) = inr tt /\
      exists (content : EmailContent) (row : Row),
        outbound (trace_of (handler_of v event w s)) = [Send content; Sync; Create row] /\
        state_of (handler_of v event w s) = with_row s row
  | inl e =>
      result_of (handler_of v event w s) = inl VerificationProcessError /\
      state_of (handler_of v event w s) = s /\
      match v with
      | index_js => filter is_error_log (trace_of (Index.handler event w s)) = []
      | part_000 => exists before, trace_of (Part000.handler event w s) = (before ++ failure_report e)%list
      end
  end.
Proof.
  pose proof (handler_result v event w s) as Hres.
  destruct (result_of (handler_try_of v event w s)) as [e|[]] eqn:Htry.
  - split; [exact Hres|]. split.
    + now destruct (failed_run v event w s _ Hres).
    + destruct v; [apply Index_logs_no_error | now apply Part000_failure_is_logged].
  - split; [exact Hres|].
    destruct (completed_run v event w s Hres) as (email & address & _ & _ & Hs & Hcalls).
    eauto.
Qed.

Lemma startup_completes (v : variant) (w : World) (s : State) :
  result_of (startup_of v w s) = inr tt /\
  EmailTrackings (state_of (startup_of v w s)) = EmailTrackings s /\
  outbound (trace_of (startup_of v w s)) = [].
Proof.
  destruct v; unfold_startup; split_run; settle; cbn; auto.
Qed.

Lemma failed_secret_is_logged (w : World) (s : State) (e : exn) :
  secretsManager_getSecretValue w "rds-db-password" = inl e ->
  exists before,
    trace_of (Part000.startup w s) =
    (before ++ [ConsoleError [LStr "Error retrieving secret rds-db-password:"; LErr e];
                ConsoleError [LStr "Error initializing secrets:";
                              LMessage (Error "Failed to retrieve secret: rds-db-password")]])%list.
Proof.
  intros H. unfold_startup. rewrite H. cbv beta iota zeta.
  eexists [_; _; _; _]. reflexivity.
Qed.

(** C6 (amended).  Module initialisation checks nothing and never raises:
    it completes in every world; the handler loaded by it behaves as
    [process] whatever is configured; [index.js] hands [SENDGRID_API_KEY] to
    SendGrid as it is, [undefined] when unset; in [part_000] a failed
    retrieval of the first secret is written to [console.error] and
    swallowed; and with [DOMAIN_NAME] unset the link is built on the host
    [undefined]. *)
Theorem startup_checks_nothing (v : variant) (w : World) (s : State) :
  result_of (startup_of v w s) = inr tt /\
  (forall event : value,
     observe (handler_of v event w (state_of (startup_of v w s)))
     = process (token_bytes v) event w (state_of (startup_of v w s))) /\
  In (SetApiKey (env_value (process_env w "SENDGRID_API_KEY"))) (trace_of (Index.startup w s)) /\
  match secretsManager_getSecretValue w "rds-db-password" with
  | inl e =>
      exists before,
        trace_of (Part000.startup w s) =
        (before ++ [ConsoleError [LStr "Error retrieving secret rds-db-password:"; LErr e];
                    ConsoleError [LStr "Error initializing secrets:";
                                  LMessage (Error "Failed to retrieve secret: rds-db-password")]])%list
  | inr _ => True
  end /\
  match process_env w "DOMAIN_NAME" with
  | None =>
      forall address : string,
        verification_link (token_bytes v) w address =
        "http://undefined/verify?email=" ++ encodeURIComponent address
          ++ "&token=" ++ generated_token (token_bytes v) w
  | Some _ => True
  end.
Proof.
  split; [apply startup_completes|].
  split; [intros event; apply handler_process|].
  split; [unfold_startup; cbn [app In]; now left|].
  split.
  - destruct (secretsManager_getSecretValue w "rds-db-password") as [e|] eqn:H; [|exact I].
    now apply failed_secret_is_logged.
  - destruct (process_env w "DOMAIN_NAME") eqn:H; [exact I|].
    intros address. unfold verification_link. now rewrite H.
Qed.

End Claims.

(** * Further properties of the code *)

Ltac unfold_secrets :=
  cbv [Part000.startup Part000.async_iife Part000.getSecret
       bind ret throw try_catch lift emit getenv get_state set_rdsPassword set_sendGridApiKey
       await_getSecretValue result_of state_of trace_of fst snd initial_state
       EmailTrackings rdsPassword sendGridApiKey].

Ltac in_cases :=
  repeat match goal with
         | H : In _ (_ :: _) |- _ => destruct H
         | H : In _ [] |- _ => destruct H
         | H : _ \/ _ |- _ => destruct H
         | H : False |- _ => destruct H
         end.

(** ** Encodings *)

Lemma hex_of_byte_decodes (b : byte) :
  match hex_of_byte b with
  | String hi (String lo EmptyString) => byte_of_hex hi lo = Some b
  | _ => False
  end.
Proof.
  destruct b; reflexivity.
Qed.

Lemma hex_of_byte_injective (a b : byte) : hex_of_byte a = hex_of_byte b -> a = b.
Proof.
  intros H. pose proof (hex_of_byte_decodes a) as Ha. pose proof (hex_of_byte_decodes b) as Hb.
  rewrite H in Ha.
  destruct (hex_of_byte b) as [|hi [|lo [|? ?]]]; try contradiction. congruence.
Qed.

(** Hex encoding of a buffer loses nothing. *)
Lemma Buffer_toString_hex_injective (a b : list byte) :
  Buffer_toString_hex a = Buffer_toString_hex b -> a = b.
Proof.
  unfold Buffer_toString_hex. revert b.
  induction a as [|x a IH]; intros [|y b]; cbn [map]; rewrite ?concat_empty_cons;
    cbn [hex_of_byte append]; try discriminate; [reflexivity|].
  intros H. injection H as H1 H2 H3.
  assert (x = y) by (apply hex_of_byte_injective; unfold hex_of_byte; cbv zeta; congruence).
  subst y. f_equal. now apply IH.
Qed.

(** X18.  Two runs produce the same token only if [crypto.randomBytes]
    returned the same bytes in both: the hex encoding loses no entropy. *)
Theorem token_determines_the_random_bytes (n : nat) (w1 w2 : World) :
  generated_token n w1 = generated_token n w2 ->
  forall i : nat, i < n -> crypto_entropy w1 i = crypto_entropy w2 i.
Proof.
  unfold generated_token. intros H i Hi.
  apply Buffer_toString_hex_injective in H.
  apply (proj1 map_ext_in_iff H). apply in_seq. lia.
Qed.

Lemma percent_encode_decodes (c : ascii) :
  match percent_encode c with
  | String p (String hi (String lo EmptyString)) => p = "%"%char /\ ascii_of_hex hi lo = c
  | _ => False
  end.
Proof.
  destruct c as [[] [] [] [] [] [] [] []]; split; reflexivity.
Qed.

Lemma percent_is_reserved : uri_unreserved "%" = false.
Proof. reflexivity. Qed.

(** X19.  [encodeURIComponent] is injective: distinct addresses never give
    the same [email] parameter. *)
Theorem encodeURIComponent_injective (a b : string) :
  encodeURIComponent a = encodeURIComponent b -> a = b.
Proof.
  revert b. induction a as [|x a IH]; intros [|y b]; cbn [encodeURIComponent].
  - reflexivity.
  - pose proof (percent_encode_decodes y) as Hy.
    destruct (uri_unreserved y); [discriminate|].
    destruct (percent_encode y) as [|? [|? [|? [|? ?]]]]; try contradiction. discriminate.
  - pose proof (percent_encode_decodes x) as Hx.
    destruct (uri_unreserved x); [discriminate|].
    destruct (percent_encode x) as [|? [|? [|? [|? ?]]]]; try contradiction. discriminate.
  - pose proof (percent_encode_decodes x) as Hx. pose proof (percent_encode_decodes y) as Hy.
    destruct (uri_unreserved x) eqn:Ux, (uri_unreserved y) eqn:Uy.
    + cbn [append]. intros H. injection H as -> H. f_equal. now apply IH.
    + destruct (percent_encode y) as [|p [|hi [|lo [|? ?]]]]; try contradiction.
      destruct Hy as [-> _]. cbn [append]. intros H. injection H as -> _.
      rewrite percent_is_reserved in Ux. discriminate.
    + destruct (percent_encode x) as [|p [|hi [|lo [|? ?]]]]; try contradiction.
      destruct Hx as [-> _]. cbn [append]. intros H. injection H as <- _.
      rewrite percent_is_reserved in Uy. discriminate.
    + destruct (percent_encode x) as [|p [|hi [|lo [|? ?]]]]; try contradiction.
      destruct (percent_encode y) as [|p' [|hi' [|lo' [|? ?]]]]; try contradiction.
      destruct Hx as [_ <-], Hy as [_ <-]. cbn [append].
      intros H. injection H as _ -> -> H. f_equal. now apply IH.
Qed.

Lemma percent_encode_is_safe (c : ascii) :
  string_forallb (fun x => uri_unreserved x || Ascii.eqb x "%") (percent_encode c) = true.
Proof.
  destruct c as [[] [] [] [] [] [] [] []]; reflexivity.
Qed.

(** X20.  The output of [encodeURIComponent] consists of unreserved
    characters and [%] only; in particular it never contains [&], [=], [#],
    [?], [/], a space, [<], [>], [+] or a double quote, so the address can
    neither add a query parameter to the link nor close the [href]
    attribute the link is written into. *)
Theorem encodeURIComponent_alphabet (s : string) :
  string_forallb (fun c => uri_unreserved c || Ascii.eqb c "%") (encodeURIComponent s) = true /\
  string_forallb
    (fun c => negb (existsb (Ascii.eqb c)
                      ["&"; "="; "#"; "?"; "/"; " "; "<"; ">"; "+"; ascii_of_nat 34]%char))
    (encodeURIComponent s) = true.
Proof.
  assert (Hsafe : forall c, uri_unreserved c || Ascii.eqb c "%" = true ->
                    negb (existsb (Ascii.eqb c)
                      ["&"; "="; "#"; "?"; "/"; " "; "<"; ">"; "+"; ascii_of_nat 34]%char) = true).
  { intros c. destruct c as [[] [] [] [] [] [] [] []]; cbv; congruence. }
  assert (Hall : string_forallb (fun c => uri_unreserved c || Ascii.eqb c "%")
                   (encodeURIComponent s) = true).
  { induction s as [|c s IH]; [reflexivity|].
    cbn [encodeURIComponent]. rewrite string_forallb_append, IH, andb_true_r.
    destruct (uri_unreserved c) eqn:U; [|apply percent_encode_is_safe].
    cbn [string_forallb]. now rewrite U. }
  split; [exact Hall|].
  revert Hall. generalize (encodeURIComponent s). intros t.
  induction t as [|c t IH]; [reflexivity|].
  cbn [string_forallb]. intros H. apply andb_true_iff in H. destruct H as [Hc Ht].
  rewrite (Hsafe c Hc). now apply IH.
Qed.

(** X21.  A string of unreserved characters is left as it is. *)
Theorem encodeURIComponent_keeps_unreserved (s : string) :
  string_forallb uri_unreserved s = true -> encodeURIComponent s = s.
Proof.
  induction s as [|c s IH]; [reflexivity|].
  cbn [string_forallb encodeURIComponent]. intros H. apply andb_true_iff in H.
  destruct H as [Hc Hs]. rewrite Hc, IH by assumption. reflexivity.
Qed.

Section Extras.
Context {rt : Runtime}.

(** ** The handlers *)

(** X1.  If [sequelize.sync] or [EmailTracking.create] rejects, the handler
    fails with the generic error and the table is as before, although the
    verification e-mail of this run has been sent and accepted: nothing
    undoes the send. *)
Theorem datastore_failure_after_send
  (v : variant) (event : value) (w : World) (s : State) (e : exn) :
  (In Sync (trace_of (handler_of v event w s)) /\ sequelize_sync w = Some e) \/
  (exists row : Row,
     In (Create row) (trace_of (handler_of v event w s)) /\ EmailTracking_create w row = Some e) ->
  result_of (handler_of v event w s) = inl VerificationProcessError /\
  state_of (handler_of v event w s) = s /\
  exists content : EmailContent,
    In (Send content) (trace_of (handler_of v event w s)) /\ sgMail_send w content = None.
Proof.
  intros H.
  assert (Hsent : forall content,
             In (Send content) (outbound (trace_of (handler_of v event w s))) ->
             In (Send content) (trace_of (handler_of v event w s))).
  { intros content Hin. apply filter_In in Hin. exact (proj1 Hin). }
  assert (H' : (In Sync (outbound (trace_of (handler_of v event w s))) /\ sequelize_sync w = Some e) \/
               (exists row : Row,
                  In (Create row) (outbound (trace_of (handler_of v event w s))) /\
                  EmailTracking_create w row = Some e)).
  { destruct H as [[Hin Hs] | (row & Hin & Hc)]; [left | right; exists row];
      (split; [apply in_outbound; [exact Hin | reflexivity] | assumption]). }
  clear H.
  pose proof (handler_run v event w s) as R.
  revert Hsent H'.
  run_cases R; intros Hsent H'; cbn [In] in H';
    repeat match goal with
           | H : _ \/ _ |- _ => destruct H
           | H : _ /\ _ |- _ => destruct H
           | H : exists _, _ |- _ => destruct H
           | H : False |- _ => destruct H
           | H : Create _ = Create _ |- _ => injection H as <-
           end;
    try discriminate; try congruence.
  all: split; [reflexivity|]; split; [reflexivity|];
    eexists; split; [apply Hsent; left; reflexivity | assumption].
Qed.

(** X2.  The calls of a run are a prefix of: one [sgMail.send], one
    [sequelize.sync], one [EmailTracking.create] of a row for the address
    the message went to.  [sync] is reached only after the send resolved,
    [create] only after [sync] resolved, and a run that resolves has made
    all three and had its row accepted. *)
Theorem calls_follow_the_protocol (v : variant) (event : value) (w : World) (s : State) :
  exists (content : EmailContent) (row : Row) (k : nat),
    outbound (trace_of (handler_of v event w s)) = firstn k [Send content; Sync; Create row] /\
    to content = email row /\
    (2 <= k -> sgMail_send w content = None) /\
    (3 <= k -> sequelize_sync w = None) /\
    (result_of (handler_of v event w s) = inr tt ->
     k = 3 /\ EmailTracking_create w row = None).
Proof.
  pose proof (handler_run v event w s) as R.
  run_cases R;
    [ exists (verification_email (token_bytes v) w VUndefined ""),
             (tracking_row (token_bytes v) w VUndefined), 0
    | exists (verification_email (token_bytes v) w VUndefined ""),
             (tracking_row (token_bytes v) w VUndefined), 0
    | .. ];
    try match goal with
        | H1 : event_email event = inr ?x, H2 : ToString ?x = inr ?a |- _ =>
            exists (verification_email (token_bytes v) w x a), (tracking_row (token_bytes v) w x)
        end.
  3: exists 1.
  4: exists 2.
  5, 6: exists 3.
  all: repeat split; intros; try reflexivity; try lia; try assumption; try discriminate.
Qed.


(** X4.  Two runs that resolve one after the other leave two rows, in
    order, after the rows that were there; nothing deduplicates, so the
    same event delivered twice is stored (and mailed) twice. *)
Theorem deliveries_accumulate
  (v : variant) (e1 e2 : value) (w1 w2 : World) (s : State) :
  result_of (handler_of v e1 w1 s) = inr tt ->
  result_of (handler_of v e2 w2 (state_of (handler_of v e1 w1 s))) = inr tt ->
  exists email1 email2 : value,
    event_email e1 = inr email1 /\
    event_email e2 = inr email2 /\
    EmailTrackings (state_of (handler_of v e2 w2 (state_of (handler_of v e1 w1 s)))) =
    (EmailTrackings s ++ [tracking_row (token_bytes v) w1 email1;
                          tracking_row (token_bytes v) w2 email2])%list.
Proof.
  intros H1 H2.
  destruct (completed_run v e1 w1 s H1) as (email1 & a1 & He1 & _ & Hs1 & _).
  destruct (completed_run v e2 w2 _ H2) as (email2 & a2 & He2 & _ & Hs2 & _).
  exists email1, email2. repeat split; try assumption.
  rewrite Hs2, Hs1. cbn [with_row EmailTrackings]. now rewrite <- app_assoc.
Qed.

(** X6.  A truthy [email] that has no string form (an object with an own
    [toString]) makes the [try] end with the [TypeError] of the conversion:
    generic error, state as before, no call to SendGrid or the datastore. *)
Theorem unprintable_email_rejected
  (v : variant) (event email : value) (e : exn) (w : World) (s : State) :
  event_email event = inr email ->
  ToString email = inl e ->
  result_of (handler_try_of v event w s) = inl e /\
  result_of (handler_of v event w s) = inl VerificationProcessError /\
  state_of (handler_of v event w s) = s /\
  outbound (trace_of (handler_of v event w s)) = [].
Proof.
  intros He Ht. split.
  - revert He Ht. destruct v; unfold_js; split_run; intros He Ht;
      try discriminate; injection He as <-; congruence.
  - pose proof (handler_run v event w s) as R.
    run_cases R; try (now repeat split); exfalso;
      match goal with
      | H1 : event_email event = inr ?x |- _ => assert (x = email) by congruence; subst x
      end; congruence.
Qed.

(** X5.  The handler reads nothing of the state: from any two states it
    returns the same result and leaves the same trace, it appends the same
    rows (none or one) to the table and leaves the module-level variables
    alone. *)
Theorem handler_ignores_the_state
  (v : variant) (event : value) (w : World) (s1 s2 : State) :
  result_of (handler_of v event w s1) = result_of (handler_of v event w s2) /\
  trace_of (handler_of v event w s1) = trace_of (handler_of v event w s2) /\
  rdsPassword (state_of (handler_of v event w s1)) = rdsPassword s1 /\
  sendGridApiKey (state_of (handler_of v event w s1)) = sendGridApiKey s1 /\
  exists new : list Row,
    EmailTrackings (state_of (handler_of v event w s1)) = (EmailTrackings s1 ++ new)%list /\
    EmailTrackings (state_of (handler_of v event w s2)) = (EmailTrackings s2 ++ new)%list /\
    length new <= 1.
Proof.
  destruct v; unfold_js; split_run;
    (split; [reflexivity|]); (split; [reflexivity|]);
    (split; [reflexivity|]); (split; [reflexivity|]);
    first [ exists []; rewrite !app_nil_r; repeat split; (reflexivity || (cbn; lia))
          | eexists [_]; repeat split; (reflexivity || (cbn; lia)) ].
Qed.

(** X9.  Every run that reaches [sgMail.send] has written the token in
    clear to [console.log]: [index.js] as a line of its own, [part_000]
    in its [Generated token: ...] line. *)
Theorem token_is_written_to_the_log
  (v : variant) (event : value) (w : World) (s : State) (content : EmailContent) :
  In (Send content) (trace_of (handler_of v event w s)) ->
  match v with
  | index_js =>
      In (ConsoleLog [LStr (generated_token 16 w)]) (trace_of (Index.handler event w s))
  | part_000 =>
      exists rest : string,
        In (ConsoleLog [LStr ("Generated token: " ++ generated_token 20 w ++ rest)])
           (trace_of (Part000.handler event w s))
  end.
Proof.
  destruct v; unfold_js; split_run; cbn [app In]; intros Hin;
    repeat match goal with
           | H : _ \/ _ |- _ => destruct H
           | H : False |- _ => destruct H
           end;
    try discriminate.
  all: try (left; reflexivity).
  all: eexists; do 2 right; left; reflexivity.
Qed.

(** X11.  [sendVerificationEmail] changes no state, calls [sgMail.send] at
    most once, returns normally only after a send that resolved, and
    otherwise throws [Failed to send verification email] whatever the
    cause was. *)
Theorem sendVerificationEmail_raises_one_error
  (v : variant) (email : value) (link : string) (w : World) (s : State) :
  state_of (sendVerificationEmail_of v email link w s) = s /\
  length (outbound (trace_of (sendVerificationEmail_of v email link w s))) <= 1 /\
  match result_of (sendVerificationEmail_of v email link w s) with
  | inr _ =>
      exists content : EmailContent,
        outbound (trace_of (sendVerificationEmail_of v email link w s)) = [Send content] /\
        sgMail_send w content = None
  | inl e => e = Error "Failed to send verification email"
  end.
Proof.
  destruct v; unfold_js; split_run; cbn [app outbound filter is_outbound length].
  all: (split; [reflexivity|]); (split; [lia|]);
    try reflexivity; eexists; (split; [reflexivity | assumption]).
Qed.

(** X10.  When SendGrid rejects the message, [part_000] writes the body of
    the provider's response (its message when there is no response) to
    [console.error] right after the call, then the message and stack of
    [Failed to send verification email], and nothing after that. *)
Theorem provider_error_is_reported
  (event : value) (w : World) (s : State) (content : EmailContent) (e : exn) :
  In (Send content) (trace_of (Part000.handler event w s)) ->
  sgMail_send w content = Some e ->
  exists before : list effect,
    trace_of (Part000.handler event w s) =
    (before
       ++ [Send content;
           ConsoleError [LStr "Error sending email:"; Part000.response_body_or_message e]]
       ++ failure_report (Error "Failed to send verification email"))%list.
Proof.
  unfold_js; split_run; cbn [app In]; intros Hin Hfail;
    repeat match goal with
           | H : _ \/ _ |- _ => destruct H
           | H : False |- _ => destruct H
           | H : Send ?c = Send ?d |- _ =>
               assert (d = c)
                 by exact (f_equal (fun ev => match ev with Send x => x | _ => d end) (eq_sym H));
               clear H; subst d
           end;
    try discriminate; try congruence.
  all: match goal with
       | H1 : sgMail_send _ ?c = Some ?a, H2 : sgMail_send _ ?c = Some ?b |- _ =>
           assert (a = b) by congruence; subst a
       end.
  all: eexists [_; _; _; _]; reflexivity.
Qed.


(** ** Secrets and module initialisation of [part_000] *)

(** X13.  [getSecret] calls Secrets Manager once and leaves the state
    alone.  It returns the parsed [SecretString] of the answer and logs
    nothing; on any failure (rejection, a missing [SecretString], text
    that is not JSON) it logs the cause with [console.error] and throws
    [Failed to retrieve secret: <name>]. *)
Theorem getSecret_outcomes (secretName : string) (w : World) (s : State) :
  state_of (Part000.getSecret secretName w s) = s /\
  match result_of (Part000.getSecret secretName w s) with
  | inr parsed =>
      trace_of (Part000.getSecret secretName w s) = [GetSecretValue secretName] /\
      exists secret secretString : value,
        secretsManager_getSecretValue w secretName = inr secret /\
        get_prop secret "SecretString" = inr secretString /\
        JSON_parse_value secretString = inr parsed
  | inl e =>
      e = Error ("Failed to retrieve secret: " ++ secretName) /\
      exists cause : exn,
        trace_of (Part000.getSecret secretName w s) =
        [GetSecretValue secretName;
         ConsoleError [LStr ("Error retrieving secret " ++ secretName ++ ":"); LErr cause]]
  end.
Proof.
  unfold_secrets. split_run; cbn [app]; repeat split; eauto.
Qed.

(** X14.  If the database secret cannot be retrieved, the module-level
    function logs [Error initializing secrets:] and returns: the SendGrid
    secret is never requested, [sgMail.setApiKey] is never called, the
    state is as before. *)
Theorem first_secret_failure_stops_initialisation (w : World) (s : State) (e : exn) :
  result_of (Part000.getSecret "rds-db-password" w s) = inl e ->
  result_of (Part000.async_iife w s) = inr tt /\
  state_of (Part000.async_iife w s) = s /\
  trace_of (Part000.async_iife w s) =
    (trace_of (Part000.getSecret "rds-db-password" w s)
       ++ [ConsoleError [LStr "Error initializing secrets:"; LMessage e]])%list.
Proof.
  unfold_secrets. split_run; cbn [app]; intros H; try discriminate;
    injection H as <-; repeat split.
Qed.

(** X15.  If both secrets are retrieved, the module-level function assigns
    the [password] of the first to [rdsPassword], the [api_key] of the
    second to [sendGridApiKey], hands the latter to [sgMail.setApiKey] and
    logs nothing. *)
Theorem both_secrets_configure_the_instance
  (w : World) (s : State) (rdsSecret sendGridSecret rds_password api_key : value) :
  result_of (Part000.getSecret "rds-db-password" w s) = inr rdsSecret ->
  get_prop rdsSecret "password" = inr rds_password ->
  result_of (Part000.getSecret "sendgrid-api-key" w s) = inr sendGridSecret ->
  get_prop sendGridSecret "api_key" = inr api_key ->
  Part000.async_iife w s =
  (inr tt,
   {| rdsPassword := rds_password; sendGridApiKey := api_key;
      EmailTrackings := EmailTrackings s |},
   [GetSecretValue "rds-db-password"; GetSecretValue "sendgrid-api-key"; SetApiKey api_key]).
Proof.
  unfold_secrets. split_run; cbn [app]; intros H1 H2 H3 H4; try discriminate.
  all: injection H1 as <-; injection H3 as <-; try congruence.
  all: repeat match goal with
              | Ha : ?x = inr ?a, Hb : ?x = inr ?b |- _ =>
                  assert (a = b) by congruence; subst a; clear Ha
              end; reflexivity.
Qed.

(** X16.  The module-level function never throws and never touches the
    table.  Either it requested both secrets and called [sgMail.setApiKey],
    or its trace ends with one [Error initializing secrets:] line, no
    [sgMail.setApiKey] was called and [sendGridApiKey] is unchanged. *)
Theorem initialisation_configures_or_reports (w : World) (s : State) :
  result_of (Part000.async_iife w s) = inr tt /\
  EmailTrackings (state_of (Part000.async_iife w s)) = EmailTrackings s /\
  ((exists key : value,
      trace_of (Part000.async_iife w s) =
        [GetSecretValue "rds-db-password"; GetSecretValue "sendgrid-api-key"; SetApiKey key] /\
      sendGridApiKey (state_of (Part000.async_iife w s)) = key) \/
   (exists (before : list effect) (e : exn),
      trace_of (Part000.async_iife w s) =
        (before ++ [ConsoleError [LStr "Error initializing secrets:"; LMessage e]])%list /\
      (forall key : value, ~ In (SetApiKey key) before) /\
      sendGridApiKey (state_of (Part000.async_iife w s)) = sendGridApiKey s)).
Proof.
  unfold_secrets. split_run; cbn [app];
    (split; [reflexivity|]); (split; [reflexivity|]).
  all: first
    [ left; eexists; split; reflexivity
    | right;
      let report before :=
        (exists before; eexists; (split; [reflexivity|]);
         (split; [intros key Hin; in_cases; discriminate | reflexivity])) in
      match goal with
      | |- exists _ _, ?a :: ?b :: ?c :: ?d :: [_] = _ /\ _ => report [a; b; c; d]
      | |- exists _ _, ?a :: ?b :: ?c :: [_] = _ /\ _ => report [a; b; c]
      | |- exists _ _, ?a :: ?b :: [_] = _ /\ _ => report [a; b]
      | |- exists _ _, ?a :: [_] = _ /\ _ => report [a]
      end ].
Qed.

(** X17.  [part_000] constructs Sequelize with the password [undefined]
    in every world, also when Secrets Manager delivers the password: the
    constructor runs before the module-level function has assigned
    [rdsPassword]. *)
Theorem database_password_is_never_the_secret (w : World) (rows : list Row) :
  (exists config : SequelizeConfig,
     In (NewSequelize config) (trace_of (Part000.startup w (initial_state rows)))) /\
  forall config : SequelizeConfig,
    In (NewSequelize config) (trace_of (Part000.startup w (initial_state rows))) ->
    password config = VUndefined.
Proof.
  unfold_secrets. split_run; cbn [app]; split.
  all: try (eexists; right; left; reflexivity).
  all: intros config Hin; in_cases; try discriminate;
    match goal with
    | H : NewSequelize _ = NewSequelize _ |- _ => injection H as <-
    end; reflexivity.
Qed.

(** ** Validation errors *)

Lemma ToString_cons (x : value) (rest : list value) :
  ToString (VArr (x :: rest)) =
  match match x with
        | VUndefined | VNull => inr ""
        | _ => ToString x
        end with
  | inl e => inl e
  | inr sx =>
      match rest with
      | [] => inr sx
      | _ :: _ =>
          match ToString (VArr rest) with
          | inl e => inl e
          | inr sr => inr (sx ++ "," ++ sr)
          end
      end
  end.
Proof.
  reflexivity.
Qed.

Lemma ToString_array_raises_TypeError (items : list value) :
  Forall (fun x => forall e, ToString x = inl e -> e = TypeError) items ->
  forall e : exn, ToString (VArr items) = inl e -> e = TypeError.
Proof.
  induction 1 as [|x rest Hx Hrest IH]; intros e; [discriminate|].
  rewrite ToString_cons.
  destruct (match x with VUndefined | VNull => inr "" | _ => ToString x end) as [e0|sx] eqn:Ex.
  - intros H. injection H as <-. destruct x; try discriminate; now apply Hx.
  - destruct rest as [|y rest']; [discriminate|].
    destruct (ToString (VArr (y :: rest'))) as [e1|sr] eqn:Er; [|discriminate].
    intros H. injection H as <-. now apply IH.
Qed.

Lemma ToString_raises_TypeError :
  forall (v : value) (e : exn), ToString v = inl e -> e = TypeError.
Proof.
  fix IH 1. intros v e. destruct v as [| | b | x | s | items | fields].
  1-5: discriminate.
  - apply ToString_array_raises_TypeError.
    induction items as [|x rest IHrest]; constructor; [apply IH | exact IHrest].
  - cbn [ToString]. destruct (own_property fields "toString"); [|discriminate].
    intros H. now injection H as <-.
Qed.

Lemma get_prop_raises_TypeError (v : value) (name : string) (e : exn) :
  get_prop v name = inl e -> e = TypeError.
Proof.
  destruct v; cbn [get_prop]; try discriminate; try (intros H; now injection H as <-).
  destruct (own_property fields name); discriminate.
Qed.

Lemma get_index_raises_TypeError (v : value) (i : nat) (e : exn) :
  get_index v i = inl e -> e = TypeError.
Proof.
  destruct v; cbn [get_index]; try discriminate; try (intros H; now injection H as <-).
  destruct (String.get i s); discriminate.
Qed.

Lemma JSON_parse_value_raises (v : value) (e : exn) :
  JSON_parse_value v = inl e -> e = TypeError \/ e = SyntaxError.
Proof.
  unfold JSON_parse_value.
  destruct (ToString v) as [e0|text] eqn:Ht.
  - intros H. injection H as <-. left. now apply ToString_raises_TypeError with v.
  - destruct (JSON_parse text); [discriminate|]. intros H. injection H as <-. now right.
Qed.

(** X8.  The validation raises one of four errors: a [TypeError], a
    [SyntaxError], [Invalid event structure: No Records found] or
    [Invalid SNS message: Missing email field]; the [try] ends with that
    error. *)
Theorem validation_raises_four_errors
  (v : variant) (event : value) (w : World) (s : State) (e : exn) :
  event_email event = inl e ->
  result_of (handler_try_of v event w s) = inl e /\
  (e = TypeError \/ e = SyntaxError \/
   e = Error "Invalid event structure: No Records found" \/
   e = Error "Invalid SNS message: Missing email field").
Proof.
  intros H. split; [now apply handler_try_rejects|].
  unfold event_email in H.
  repeat match type of H with
         | match ?x with _ => _ end = _ => destruct x eqn:?
         end;
    try discriminate; injection H as <-; auto;
    try (left; eapply get_prop_raises_TypeError; eassumption);
    try (left; eapply get_index_raises_TypeError; eassumption).
  match goal with
  | H : JSON_parse_value _ = inl _ |- _ => destruct (JSON_parse_value_raises _ _ H); auto
  end.
Qed.

Lemma uninterpretable_event_email (event : value) :
  Uninterpretable event -> event_email event = inl TypeError.
Proof.
  intros H. unfold event_email.
  destruct H as [event H | event record rest H Hn | event record rest sns H Hs Hn
                | event [record rest sns message text H Hs Hm Ht Hp]].
  - destruct event; try discriminate; reflexivity.
  - rewrite H. cbn. destruct record; try discriminate; reflexivity.
  - rewrite H. cbn. rewrite Hs. destruct sns; try discriminate; reflexivity.
  - rewrite H. cbn. rewrite Hs, Hm. unfold JSON_parse_value. now rewrite Ht, Hp.
Qed.

(** X7.  An event that is [null] or [undefined], whose first record is,
    whose first record has no [Sns], or whose first message is the JSON
    text [null], ends the [try] with a [TypeError]: generic error, state as
    before, no call to SendGrid or the datastore. *)
Theorem uninterpretable_event_rejected
  (v : variant) (event : value) (w : World) (s : State) :
  Uninterpretable event ->
  result_of (handler_try_of v event w s) = inl TypeError /\
  result_of (handler_of v event w s) = inl VerificationProcessError /\
  state_of (handler_of v event w s) = s /\
  outbound (trace_of (handler_of v event w s)) = [].
Proof.
  intros H. apply rejected_run. now apply uninterpretable_event_email.
Qed.

End Extras.

(** ** The claims at concrete events

    The handlers run on the events of [Fixture], with its runtime. *)

#[local] Existing Instance Fixture.runtime.

(** The end-to-end scenario of the spec, on [index.js]. *)
Example end_to_end_scenario :
  observe (Index.handler Fixture.signup_event Fixture.healthy_world (initial_state [])) =
  (inr tt,
   initial_state [ {| email := VStr "user@example.com";
                      token := "000102030405060708090a0b0c0d0e0f";
                      expiryTime := 1700000000000 + 120 * 1000 |} ],
   [ Send {| to := VStr "user@example.com";
             from := VStr "noreply@example.org";
             subject := "Verify Your Email";
             html := newline
               ++ "      <p>Thank you for signing up! Please verify your email address by clicking the link below:</p>"
               ++ newline
               ++ "      <p><a href=" ++ dquote
               ++ "http://example.org/verify?email=user%40example.com&token=000102030405060708090a0b0c0d0e0f"
               ++ dquote ++ ">Verify Email</a></p>"
               ++ newline
               ++ "      <p>This link will expire in 2 minutes.</p>"
               ++ newline
               ++ "    " |};
     Sync;
     Create {| email := VStr "user@example.com";
               token := "000102030405060708090a0b0c0d0e0f";
               expiryTime := 1700000000000 + 120 * 1000 |} ]).
Proof.
  vm_compute. reflexivity.
Qed.

(** C1 at the signup event, SendGrid answering [Bad Request]. *)
Lemma send_failure_aborts_witness :
  result_of (handler_of part_000 Fixture.signup_event Fixture.send_failing_world (initial_state []))
    = inl VerificationProcessError /\
  state_of (handler_of part_000 Fixture.signup_event Fixture.send_failing_world (initial_state []))
    = initial_state [] /\
  filter is_datastore
    (trace_of (handler_of part_000 Fixture.signup_event Fixture.send_failing_world (initial_state [])))
    = [].
Proof.
  apply (send_failure_aborts part_000 Fixture.signup_event Fixture.send_failing_world
           (initial_state [])
           (verification_email 20 Fixture.send_failing_world
              (VStr "user@example.com") "user@example.com")
           (Rejection None "Bad Request")).
  - vm_compute. tauto.
  - reflexivity.
Defined.

(** C2 at an event whose [Records] is empty. *)
Lemma malformed_event_rejected_witness :
  result_of (handler_try_of index_js (Fixture.sns_event []) Fixture.healthy_world (initial_state []))
    = inl (Error "Invalid event structure: No Records found") /\
  result_of (handler_of index_js (Fixture.sns_event []) Fixture.healthy_world (initial_state []))
    = inl VerificationProcessError /\
  state_of (handler_of index_js (Fixture.sns_event []) Fixture.healthy_world (initial_state []))
    = initial_state [] /\
  outbound (trace_of (handler_of index_js (Fixture.sns_event []) Fixture.healthy_world
                        (initial_state [])))
    = [].
Proof.
  apply (malformed_event_rejected index_js (Fixture.sns_event []) Fixture.healthy_world
           (initial_state [])).
  apply Records_empty. reflexivity.
Defined.

(** C10 at the message [{"email":0}]. *)
Lemma falsy_email_rejected_witness :
  result_of (handler_try_of part_000 (Fixture.email_event "0") Fixture.healthy_world
               (initial_state []))
    = inl (Error "Invalid SNS message: Missing email field") /\
  result_of (handler_of part_000 (Fixture.email_event "0") Fixture.healthy_world
               (initial_state []))
    = inl VerificationProcessError /\
  state_of (handler_of part_000 (Fixture.email_event "0") Fixture.healthy_world
              (initial_state []))
    = initial_state [] /\
  outbound (trace_of (handler_of part_000 (Fixture.email_event "0") Fixture.healthy_world
                        (initial_state [])))
    = [].
Proof.
  apply (falsy_email_rejected part_000 (Fixture.email_event "0")
           (VObj [("email", VNum 0%float)]) (VNum 0%float)
           Fixture.healthy_world (initial_state [])).
  - eapply first_record_message_intro; vm_compute; reflexivity.
  - reflexivity.
  - reflexivity.
Defined.

(** The empty string, [null], [0] and [false] as [email]. *)
Example falsy_emails_are_all_rejected :
  map (fun json => observe (Index.handler (Fixture.email_event json) Fixture.healthy_world
                              (initial_state [])))
      [dquote ++ dquote; "null"; "0"; "false"]
  = repeat (inl VerificationProcessError, initial_state [], []) 4.
Proof.
  vm_compute. reflexivity.
Qed.

(** C3 at the signup event. *)
Lemma token_and_link_format_witness :
  exists (token : string) (log : list effect) (content : EmailContent) (before after : string),
    String.length token = 32 /\
    string_forallb is_hex_char token = true /\
    Index.generateVerificationLink (VStr "user@example.com") Fixture.healthy_world
      (initial_state []) =
      (inr (token,
            "http://" ++ "example.org" ++ "/verify?email=" ++ encodeURIComponent "user@example.com"
              ++ "&token=" ++ token,
            (Date_now Fixture.healthy_world + 2 * 60 * 1000)%Z), initial_state [], log) /\
    hd_error (outbound (trace_of (Index.handler Fixture.signup_event Fixture.healthy_world
                                    (initial_state [])))) = Some (Send content) /\
    to content = VStr "user@example.com" /\
    html content =
      before
        ++ ("http://" ++ "example.org" ++ "/verify?email=" ++ encodeURIComponent "user@example.com"
              ++ "&token=" ++ token)
        ++ after.
Proof.
  apply (token_and_link_format index_js Fixture.signup_event (VStr "user@example.com")
           "user@example.com" "example.org" Fixture.healthy_world (initial_state []));
    vm_compute; reflexivity.
Defined.

(** C4 at the signup event. *)
Lemma expiry_is_two_minutes_after_now_witness :
  exists (email : value) (token link : string) (expiry : Z) (log : list effect),
    event_email Fixture.signup_event = inr email /\
    generateVerificationLink_of part_000 email Fixture.healthy_world (initial_state []) =
      (inr (token, link, expiry), initial_state [], log) /\
    (expiry - Date_now Fixture.healthy_world = 120 * 1000)%Z /\
    In (Create {| email := email; token := token; expiryTime := expiry |})
       (trace_of (handler_of part_000 Fixture.signup_event Fixture.healthy_world
                    (initial_state []))) /\
    EmailTrackings (state_of (handler_of part_000 Fixture.signup_event Fixture.healthy_world
                                (initial_state []))) =
      (EmailTrackings (initial_state [])
         ++ [{| email := email; token := token; expiryTime := expiry |}])%list.
Proof.
  apply (expiry_is_two_minutes_after_now part_000 Fixture.signup_event Fixture.healthy_world
           (initial_state [])).
  vm_compute. reflexivity.
Defined.

(** C5 at the signup event, over a table that already holds a row. *)
Lemma persisted_row_is_complete_witness :
  Forall complete_row
    (EmailTrackings (state_of (handler_of index_js Fixture.signup_event Fixture.healthy_world
                                 (initial_state [Fixture.earlier_row])))).
Proof.
  apply (persisted_row_is_complete index_js Fixture.signup_event Fixture.healthy_world
           (initial_state [Fixture.earlier_row])).
  repeat constructor.
Defined.

(** C8 at the signup event and the same event with two more records. *)
Lemma only_first_record_is_consulted_witness :
  observe (handler_of part_000 Fixture.signup_event Fixture.healthy_world (initial_state []))
  = observe (handler_of part_000 Fixture.crowded_event Fixture.healthy_world (initial_state [])) /\
  Index.handler Fixture.signup_event Fixture.healthy_world (initial_state [])
  = Index.handler Fixture.crowded_event Fixture.healthy_world (initial_state []).
Proof.
  apply (only_first_record_is_consulted part_000 Fixture.signup_event Fixture.crowded_event
           (Fixture.sns_record (VStr (Fixture.message_for "user@example.com")))
           [] [VNull; VStr "noise"] Fixture.healthy_world (initial_state []));
    reflexivity.
Defined.

(** C9 at a string e-mail value, SendGrid answering [Bad Request]. *)
Lemma variants_share_core_logic_witness :
  observe (Index.sendVerificationEmail (VStr "user@example.com") "http://example.org/"
             Fixture.send_failing_world (initial_state []))
  = observe (Part000.sendVerificationEmail (VStr "user@example.com") "http://example.org/"
               Fixture.send_failing_world (initial_state [])).
Proof.
  apply (variants_share_core_logic (VStr "user@example.com") "user@example.com"
           "http://example.org/" Fixture.send_failing_world (initial_state [])).
  reflexivity.
Defined.

(** C6, counterexample.  Nothing is configured and Secrets Manager refuses
    both secrets; both modules load all the same, and the handler of
    [part_000] then serves the signup event to the end, with a link on the
    host [undefined] and a sender that is [undefined]. *)
Lemma unconfigured_instance_starts_and_serves :
  result_of (Index.startup Fixture.bare_world (initial_state [])) = inr tt /\
  result_of (Part000.startup Fixture.bare_world (initial_state [])) = inr tt /\
  observe (Part000.handler Fixture.signup_event Fixture.bare_world
             (state_of (Part000.startup Fixture.bare_world (initial_state [])))) =
  (inr tt,
   initial_state [ {| email := VStr "user@example.com";
                      token := "000102030405060708090a0b0c0d0e0f10111213";
                      expiryTime := 1700000120000 |} ],
   [ Send {| to := VStr "user@example.com";
             from := VUndefined;
             subject := "Verify Your Email";
             html := newline
               ++ "      <p>Thank you for signing up! Please verify your email address by clicking the link below:</p>"
               ++ newline
               ++ "      <p><a href=" ++ dquote
               ++ "http://undefined/verify?email=user%40example.com&token=000102030405060708090a0b0c0d0e0f10111213"
               ++ dquote ++ ">Verify Email</a></p>"
               ++ newline
               ++ "      <p>This link will expire in 2 minutes.</p>"
               ++ newline
               ++ "    " |};
     Sync;
     Create {| email := VStr "user@example.com";
               token := "000102030405060708090a0b0c0d0e0f10111213";
               expiryTime := 1700000120000 |} ]).
Proof.
  vm_compute. repeat split; reflexivity.
Qed.

(** C7, counterexample.  [index.js] on an event with an empty [Records]:
    the run fails with the generic error and its whole trace is empty, so
    the internal error was logged nowhere.  The same holds when SendGrid
    rejects the message: the trace has the token and the call, no error. *)
Lemma index_js_failure_goes_unlogged :
  Index.handler (Fixture.sns_event []) Fixture.healthy_world (initial_state [])
  = (inl VerificationProcessError, initial_state [], []) /\
  result_of (Index.handler Fixture.signup_event Fixture.send_failing_world (initial_state []))
  = inl VerificationProcessError /\
  filter is_error_log
    (trace_of (Index.handler Fixture.signup_event Fixture.send_failing_world (initial_state [])))
  = [] /\
  length (trace_of (Index.handler Fixture.signup_event Fixture.send_failing_world
                      (initial_state []))) = 2.
Proof.
  vm_compute. repeat split; reflexivity.
Qed.

(** What [part_000] logs on the same event. *)
Example part_000_failure_is_logged :
  trace_of (Part000.handler (Fixture.sns_event []) Fixture.healthy_world (initial_state [])) =
  [ ConsoleLog [LStr "Event received:"; LVal (VStr "<json>")];
    ConsoleError [LStr "Invalid event structure: No Records found"];
    ConsoleError [LStr "Error handling verification process:";
                  LMessage (Error "Invalid event structure: No Records found")];
    ConsoleError [LStack (Error "Invalid event structure: No Records found")] ].
Proof.
  vm_compute. reflexivity.
Qed.

(** Events the handlers cannot interpret, the cases of C2 among them. *)
Example malformed_events_are_all_rejected :
  map (fun event => observe (Part000.handler event Fixture.healthy_world (initial_state [])))
      [ VObj []; VObj [("Records", VStr "none")]; Fixture.sns_event [];
        Fixture.sns_event [Fixture.sns_record (VStr "not json")];
        Fixture.sns_event [Fixture.sns_record (VStr "{}")];
        VNull; Fixture.sns_event [VObj []]; Fixture.sns_event [Fixture.sns_record (VStr "null")] ]
  = repeat (inl VerificationProcessError, initial_state [], []) 8.
Proof.
  vm_compute. reflexivity.
Qed.

(** ** The further properties at concrete events *)

(** X1 at the signup event, [sequelize.sync] answering [ECONNREFUSED]. *)
Lemma datastore_failure_after_send_witness :
  result_of (handler_of index_js Fixture.signup_event Vault.datastore_down_world (initial_state []))
    = inl VerificationProcessError /\
  state_of (handler_of index_js Fixture.signup_event Vault.datastore_down_world (initial_state []))
    = initial_state [] /\
  exists content : EmailContent,
    In (Send content)
       (trace_of (handler_of index_js Fixture.signup_event Vault.datastore_down_world
                    (initial_state []))) /\
    sgMail_send Vault.datastore_down_world content = None.
Proof.
  apply (datastore_failure_after_send index_js Fixture.signup_event Vault.datastore_down_world
           (initial_state []) (Rejection None "ECONNREFUSED")).
  left. split; [vm_compute; tauto | reflexivity].
Defined.

(** X4 at the signup event delivered twice in the same world: the table
    ends with the same row twice. *)
Lemma deliveries_accumulate_witness :
  exists email1 email2 : value,
    event_email Fixture.signup_event = inr email1 /\
    event_email Fixture.signup_event = inr email2 /\
    EmailTrackings
      (state_of (handler_of part_000 Fixture.signup_event Fixture.healthy_world
                   (state_of (handler_of part_000 Fixture.signup_event Fixture.healthy_world
                                (initial_state [Fixture.earlier_row]))))) =
    (EmailTrackings (initial_state [Fixture.earlier_row])
       ++ [tracking_row (token_bytes part_000) Fixture.healthy_world email1;
           tracking_row (token_bytes part_000) Fixture.healthy_world email2])%list.
Proof.
  apply (deliveries_accumulate part_000 Fixture.signup_event Fixture.signup_event
           Fixture.healthy_world Fixture.healthy_world (initial_state [Fixture.earlier_row]));
    vm_compute; reflexivity.
Defined.

(** X6 at the message [{'email':{'toString':1}}]. *)
Lemma unprintable_email_rejected_witness :
  result_of (handler_try_of index_js Vault.unprintable_event Fixture.healthy_world
               (initial_state [])) = inl TypeError /\
  result_of (handler_of index_js Vault.unprintable_event Fixture.healthy_world
               (initial_state [])) = inl VerificationProcessError /\
  state_of (handler_of index_js Vault.unprintable_event Fixture.healthy_world
              (initial_state [])) = initial_state [] /\
  outbound (trace_of (handler_of index_js Vault.unprintable_event Fixture.healthy_world
                        (initial_state []))) = [].
Proof.
  apply (unprintable_email_rejected index_js Vault.unprintable_event
           (VObj [("toString", VNum 1%float)]) TypeError Fixture.healthy_world (initial_state []));
    vm_compute; reflexivity.
Defined.

(** X7 at the event [null]. *)
Lemma uninterpretable_event_rejected_witness :
  result_of (handler_try_of part_000 VNull Fixture.healthy_world (initial_state []))
    = inl TypeError /\
  result_of (handler_of part_000 VNull Fixture.healthy_world (initial_state []))
    = inl VerificationProcessError /\
  state_of (handler_of part_000 VNull Fixture.healthy_world (initial_state []))
    = initial_state [] /\
  outbound (trace_of (handler_of part_000 VNull Fixture.healthy_world (initial_state []))) = [].
Proof.
  apply (uninterpretable_event_rejected part_000 VNull Fixture.healthy_world (initial_state [])).
  apply event_nullish. reflexivity.
Defined.

(** X8 at a first message that is not JSON. *)
Lemma validation_raises_four_errors_witness :
  result_of (handler_try_of index_js
               (Fixture.sns_event [Fixture.sns_record (VStr "not json")])
               Fixture.healthy_world (initial_state [])) = inl SyntaxError /\
  (SyntaxError = TypeError \/ SyntaxError = SyntaxError \/
   SyntaxError = Error "Invalid event structure: No Records found" \/
   SyntaxError = Error "Invalid SNS message: Missing email field").
Proof.
  apply (validation_raises_four_errors index_js
           (Fixture.sns_event [Fixture.sns_record (VStr "not json")])
           Fixture.healthy_world (initial_state []) SyntaxError).
  vm_compute. reflexivity.
Defined.

(** X9 at the signup event, on [index.js]. *)
Lemma token_is_written_to_the_log_witness :
  In (ConsoleLog [LStr (generated_token 16 Fixture.healthy_world)])
     (trace_of (Index.handler Fixture.signup_event Fixture.healthy_world (initial_state []))).
Proof.
  apply (token_is_written_to_the_log index_js Fixture.signup_event Fixture.healthy_world
           (initial_state [])
           (verification_email 16 Fixture.healthy_world
              (VStr "user@example.com") "user@example.com")).
  vm_compute. tauto.
Defined.

(** X10 at the signup event, SendGrid answering with a response body. *)
Lemma provider_error_is_reported_witness :
  exists before : list effect,
    trace_of (Part000.handler Fixture.signup_event Vault.refusing_world (initial_state [])) =
    (before
       ++ [Send (verification_email 20 Vault.refusing_world
                   (VStr "user@example.com") "user@example.com");
           ConsoleError [LStr "Error sending email:";
                         Part000.response_body_or_message Vault.unauthorized]]
       ++ failure_report (Error "Failed to send verification email"))%list.
Proof.
  apply (provider_error_is_reported Fixture.signup_event Vault.refusing_world (initial_state [])
           (verification_email 20 Vault.refusing_world
              (VStr "user@example.com") "user@example.com")
           Vault.unauthorized).
  - vm_compute. tauto.
  - reflexivity.
Defined.

(** X14 in a world whose Secrets Manager refuses every request. *)
Lemma first_secret_failure_stops_initialisation_witness :
  result_of (Part000.async_iife Fixture.bare_world (initial_state [])) = inr tt /\
  state_of (Part000.async_iife Fixture.bare_world (initial_state [])) = initial_state [] /\
  trace_of (Part000.async_iife Fixture.bare_world (initial_state [])) =
    (trace_of (Part000.getSecret "rds-db-password" Fixture.bare_world (initial_state []))
       ++ [ConsoleError [LStr "Error initializing secrets:";
                         LMessage (Error "Failed to retrieve secret: rds-db-password")]])%list.
Proof.
  apply (first_secret_failure_stops_initialisation Fixture.bare_world (initial_state [])
           (Error "Failed to retrieve secret: rds-db-password")).
  vm_compute. reflexivity.
Defined.

(** X15 in a world whose Secrets Manager holds both secrets. *)
Lemma both_secrets_configure_the_instance_witness :
  Part000.async_iife Vault.world (initial_state []) =
  (inr tt,
   {| rdsPassword := VStr "hunter2"; sendGridApiKey := VStr "SG.key";
      EmailTrackings := EmailTrackings (initial_state []) |},
   [GetSecretValue "rds-db-password"; GetSecretValue "sendgrid-api-key";
    SetApiKey (VStr "SG.key")]).
Proof.
  apply (both_secrets_configure_the_instance Vault.world (initial_state [])
           (VObj [("password", VStr "hunter2")]) (VObj [("api_key", VStr "SG.key")])
           (VStr "hunter2") (VStr "SG.key"));
    vm_compute; reflexivity.
Defined.

(** X17 meets X15: the password arrives, the connection never gets it. *)
Example password_arrives_too_late :
  rdsPassword (state_of (Part000.startup Vault.world (initial_state []))) = VStr "hunter2" /\
  filter (fun ev => match ev with NewSequelize _ => true | _ => false end)
         (trace_of (Part000.startup Vault.world (initial_state []))) =
  [NewSequelize {| database := VUndefined; username := VUndefined; password := VUndefined;
                   host := VUndefined; port := VUndefined;
                   dialect := "postgres"; logging := true |}].
Proof.
  vm_compute. split; reflexivity.
Qed.

(** X18 at two worlds with the same random source. *)
Lemma token_determines_the_random_bytes_witness :
  crypto_entropy Fixture.healthy_world 3 = crypto_entropy Vault.world 3.
Proof.
  apply (token_determines_the_random_bytes 16 Fixture.healthy_world Vault.world);
    [reflexivity | lia].
Defined.

(** X19 at the address of the signup event. *)
Lemma encodeURIComponent_injective_witness :
  "user@example.com" = "user" ++ "@example.com".
Proof.
  apply (encodeURIComponent_injective "user@example.com" ("user" ++ "@example.com")).
  reflexivity.
Defined.

(** X21 at a host name. *)
Lemma encodeURIComponent_keeps_unreserved_witness :
  encodeURIComponent "example.org" = "example.org".
Proof.
  apply (encodeURIComponent_keeps_unreserved "example.org"). reflexivity.
Defined.
